(** * weverse.objects.notification

    A shallow embedding of [weverse/objects/notification.py]: the
    [Notification] class, built once from the raw payload of the Weverse
    API, with its comparison and hashing methods and its three derived
    properties [url], [post_id] and [post_type].

    Conventions of the embedding.
    - A Python [str] is a [string]; its characters are the 256 code points
      of Latin-1.  Among them the decimal digits (Unicode category Nd, what
      [\d] matches in a [str] pattern) are exactly ["0"] to ["9"].
    - A [dict] read by key only is a [gmap string value]; the table
      [post_types], which is iterated, is a list of pairs in declaration
      order.
    - A raised exception is the [Raise] branch of [result]; statements are
      sequenced with the bind of that monad, in source order.
    - Code of the package that lives in other modules ([PartialCommunity],
      [PartialMember]) and the builtins [hash] and [repr] are Variables of
      the section [NotificationClass]. *)

From Stdlib Require Import ZArith Ascii String.
From stdpp Require Import gmap strings list fin_maps.

#[local] Open Scope string_scope.
#[local] Set Warnings "-register-all,-notation-for-abbreviation".

(** ** Python values and exceptions *)

(** The values a decoded JSON document is made of. *)
Inductive value : Type :=
| VNone
| VBool (b : bool)
| VInt (z : Z)
| VStr (s : string)
| VList (l : list value)
| VDict (d : gmap string value).

Inductive exn : Type :=
| KeyError
| IndexError
| TypeError
| AttributeError
| NotImplementedError.

Inductive result (A : Type) : Type :=
| Ok (a : A)
| Raise (e : exn).

Arguments Ok {A} a.
Arguments Raise {A} e.

#[global] Instance result_ret : MRet result := fun A a => Ok a.
#[global] Instance result_bind : MBind result := fun A B f m =>
  match m with
  | Ok a => f a
  | Raise e => Raise e
  end.

#[global] Instance result_fmap : FMap result := fun A B f m =>
  match m with
  | Ok a => Ok (f a)
  | Raise e => Raise e
  end.

Definition is_ok {A} (r : result A) : bool :=
  match r with
  | Ok _ => true
  | Raise _ => false
  end.

(** *** Operations of the interpreter on values *)

(** [bool(v)]. *)
Definition truthy (v : value) : bool :=
  match v with
  | VNone => false
  | VBool b => b
  | VInt z => negb (z =? 0)%Z
  | VStr s => negb (String.eqb s "")
  | VList l => match l with [] => false | _ :: _ => true end
  | VDict d => negb (bool_decide (d = ∅))
  end.

(** [d[k]] on the payload, a [dict]. *)
Definition getitem (d : gmap string value) (k : string) : result value :=
  match d !! k with
  | Some v => Ok v
  | None => Raise KeyError
  end.

(** [d.get(k)]. *)
Definition dict_get (d : gmap string value) (k : string) : value :=
  default VNone (d !! k).

(** [v[k]] for a string key [k], on any value. *)
Definition subscript (v : value) (k : string) : result value :=
  match v with
  | VDict d => getitem d k
  | _ => Raise TypeError
  end.

(** [v[i]] for a non-negative integer constant [i], on any value.  The keys
    of a decoded JSON object are strings, so an integer is never among
    them. *)
Definition subscript_index (v : value) (i : nat) : result value :=
  match v with
  | VList l =>
      match l !! i with
      | Some x => Ok x
      | None => Raise IndexError
      end
  | VStr s =>
      match String.get i s with
      | Some c => Ok (VStr (String c ""))
      | None => Raise IndexError
      end
  | VDict _ => Raise KeyError
  | _ => Raise TypeError
  end.

(** [v.get(k, dflt)] on any value: only a [dict] has the method. *)
Definition get_method (v : value) (k : string) (dflt : value) : result value :=
  match v with
  | VDict d => Ok (default dflt (d !! k))
  | _ => Raise AttributeError
  end.

Definition num (v : value) : option Z :=
  match v with
  | VBool b => Some (if b then 1 else 0)%Z
  | VInt z => Some z
  | _ => None
  end.

(** [a == b]: booleans compare as the integers 0 and 1, lists element by
    element, dicts key by key. *)
Fixpoint py_eq (a b : value) {struct a} : bool :=
  match a, b with
  | VNone, VNone => true
  | (VBool _ | VInt _), (VBool _ | VInt _) => bool_decide (num a = num b)
  | VStr s, VStr t => String.eqb s t
  | VList l, VList m =>
      (fix go (l m : list value) : bool :=
         match l, m with
         | [], [] => true
         | x :: l', y :: m' => py_eq x y && go l' m'
         | _, _ => false
         end) l m
  | VDict d, VDict e =>
      bool_decide (dom d = dom e) &&
      map_fold (fun k v acc =>
                  acc && match e !! k with
                         | Some w => py_eq v w
                         | None => false
                         end) true d
  | _, _ => false
  end.

(** ** Strings *)

Definition is_digit (c : ascii) : bool :=
  (48 <=? nat_of_ascii c)%nat && (nat_of_ascii c <=? 57)%nat.

(** [sub in s] for two strings. *)
Fixpoint is_substring (sub s : string) : bool :=
  String.prefix sub s ||
  match s with
  | String _ s' => is_substring sub s'
  | EmptyString => false
  end.

(** [key in v], [key] a string: substring of a string, element of a list,
    key of a dict. *)
Definition contains (key : string) (v : value) : result bool :=
  match v with
  | VStr s => Ok (is_substring key s)
  | VList l => Ok (existsb (py_eq (VStr key)) l)
  | VDict d => Ok (bool_decide (is_Some (d !! key)))
  | _ => Raise TypeError
  end.

Fixpoint all_digits (s : string) : bool :=
  match s with
  | String c s' => is_digit c && all_digits s'
  | EmptyString => true
  end.

Fixpoint no_digit (s : string) : bool :=
  match s with
  | String c s' => negb (is_digit c) && no_digit s'
  | EmptyString => true
  end.

Definition starts_with_digit (s : string) : bool :=
  match s with
  | String c _ => is_digit c
  | EmptyString => false
  end.

(** ** The fragment of [re] the module uses *)

Module re.

(** One-character matchers. *)
Inductive cset : Type :=
| Digit                 (* \d  and  [\d] *)
| Char (c : ascii).     (* a literal character *)

Inductive regex : Type :=
| One (a : cset)          (* a *)
| Many1 (a : cset)        (* a+ , greedy *)
| Cat (r1 r2 : regex)     (* r1 r2 *)
| Group (r : regex).      (* ( r ) *)

Definition accepts (a : cset) (c : ascii) : bool :=
  match a with
  | Digit => is_digit c
  | Char c' => Ascii.eqb c' c
  end.

(** [a+] then the continuation [k]: the longest run first, one character
    given back at a time when [k] fails.  The result is the text matched
    from here on. *)
Fixpoint many1 (a : cset) (s : string) (k : string -> option string)
  : option string :=
  match s with
  | String c s' =>
      if accepts a c then
        match many1 a s' k with
        | Some m => Some (String c m)
        | None => String c <$> k s'
        end
      else None
  | EmptyString => None
  end.

Fixpoint match_here (r : regex) (s : string) (k : string -> option string)
  : option string :=
  match r with
  | One a =>
      match s with
      | String c s' => if accepts a c then String c <$> k s' else None
      | EmptyString => None
      end
  | Many1 a => many1 a s k
  | Cat r1 r2 => match_here r1 s (fun s' => match_here r2 s' k)
  | Group r' => match_here r' s k
  end.

(** The continuation at the end of the pattern: nothing more to match. *)
Definition finish : string -> option string := fun _ => Some "".

(** Scanning for the leftmost match.  The result stands for the Match
    object, through the only thing the module reads of it: [group(0)],
    the whole matched text; [None] is Python's [None]. *)
Fixpoint scan (r : regex) (s : string) : option string :=
  match match_here r s finish with
  | Some m => Some m
  | None =>
      match s with
      | String _ s' => scan r s'
      | EmptyString => None
      end
  end.

(** [re.search(r, v)]: a [TypeError] unless [v] is a string. *)
Definition search (r : regex) (v : value) : result (option string) :=
  match v with
  | VStr s => Ok (scan r s)
  | _ => Raise TypeError
  end.

(** [match.group(0)], where [match] may be [None]. *)
Definition group0 (m : option string) : result string :=
  match m with
  | Some t => Ok t
  | None => Raise AttributeError
  end.

End re.

(** ** The enumeration [weverse.enums.NotificationType] *)

Module NotificationType.
(** Modelled from the spec: the module [weverse.enums] that declares
    [NotificationType] is not among the sources.  The members are the ten
    that [post_type] names; the spec lists the same taxonomy
    (user-post-comment, media-comment, moment-comment, artist-post-comment,
    post, moment, live, media, notice, birthday). *)
Inductive t : Type :=
| USER_POST_COMMENT
| MEDIA_COMMENT
| MOMENT_COMMENT
| ARTIST_POST_COMMENT
| POST
| MOMENT
| LIVE
| MEDIA
| NOTICE
| BIRTHDAY.
End NotificationType.

(** What [post_type] returns: a member of the enumeration, or a string. *)
Inductive post_type_value : Type :=
| Member (m : NotificationType.t)
| Text (s : string).

(** ** The class [Notification] *)

Section NotificationClass.

(** The classes of [weverse.objects.community] and [weverse.objects.member]
    with their constructors, which receive a fragment of the payload and
    may raise. *)
Variables PartialCommunity PartialMember : Type.
Variable new_PartialCommunity : value -> result PartialCommunity.
Variable new_PartialMember : value -> result PartialMember.

(** The builtin [hash]; it raises on unhashable values. *)
Variable hash : value -> result Z.

(** The builtin [repr], the text of a value that is not a string. *)
Variable repr : value -> string.

(** The slots of an instance.  [author] is [None] or a [PartialMember]. *)
Record Notification : Type := {
  data : gmap string value;
  id : value;
  title : value;
  message_ko : value;
  message_ja : value;
  message_en : value;
  image_url : value;
  logo_image_url : value;
  time_created : value;
  count : value;
  is_read : value;
  community : PartialCommunity;
  author : option PartialMember
}.

(** Any object the caller may compare a notification with. *)
Inductive object : Type :=
| ANotification (n : Notification)
| AValue (v : value)
| ACommunity (c : PartialCommunity)
| AMember (m : PartialMember).

Definition __init__ (data : gmap string value) : result Notification :=
  id ← getitem data "activityId";
  title ← getitem data "title";
  message_ko ← (m ← getitem data "message"; vs ← subscript m "values";
                get_method vs "ko" (VStr ""));
  message_ja ← (m ← getitem data "message"; vs ← subscript m "values";
                get_method vs "ja" (VStr ""));
  message_en ← (m ← getitem data "message"; vs ← subscript m "values";
                get_method vs "en" (VStr ""));
  let image_url := dict_get data "imageUrl" in
  logo_image_url ← getitem data "logoImageUrl";
  time_created ← getitem data "time";
  count ← getitem data "count";
  is_read ← getitem data "read";
  community ← (c ← getitem data "community"; new_PartialCommunity c);
  author ← (if truthy (dict_get data "authors")
            then l ← getitem data "authors";
                 a ← subscript_index l 0;
                 Some <$> new_PartialMember a
            else Ok None);
  mret {| data := data; id := id; title := title;
          message_ko := message_ko; message_ja := message_ja;
          message_en := message_en; image_url := image_url;
          logo_image_url := logo_image_url;
          time_created := time_created; count := count;
          is_read := is_read; community := community;
          author := author |}.

Definition __eq__ (self : Notification) (other : object) : result bool :=
  match other with
  | ANotification other => Ok (py_eq (id self) (id other))
  | _ => Raise NotImplementedError
  end.

Definition __str__ (self : Notification) : value := message_en self.

Definition __hash__ (self : Notification) : result Z := hash (id self).

(** A replacement field [{v}] of an f-string: [str(v)]. *)
Definition format (v : value) : string :=
  match v with
  | VStr s => s
  | _ => repr v
  end.

Definition __repr__ (self : Notification) : string :=
  "Notification notification_id=" +:+ format (id self) +:+
  ", message=" +:+ format (message_en self).

Definition url (self : Notification) : result string :=
  path ← getitem (data self) "webUrl";
  Ok ("https://weverse.io" +:+ format path).

(** [([\d]-\d+)] *)
Definition pattern : re.regex :=
  re.Group (re.Cat (re.One re.Digit)
                   (re.Cat (re.One (re.Char "-")) (re.Many1 re.Digit))).

(** [\d+] *)
Definition digits : re.regex := re.Many1 re.Digit.

Definition post_id (self : Notification) : result string :=
  subject ← getitem (data self) "messageId";
  found ← re.search pattern subject;
  found ← match found with
          | None =>
              subject ← getitem (data self) "messageId";
              re.search digits subject
          | Some _ => Ok found
          end;
  re.group0 found.

Definition post_types : list (string * NotificationType.t) :=
  [ ("T_FEED_COMMENT", NotificationType.USER_POST_COMMENT);
    ("ST_FEED_COMMENT", NotificationType.USER_POST_COMMENT);
    ("_MEDIA_COMMENT", NotificationType.MEDIA_COMMENT);
    ("_MOMENT_COMMENT", NotificationType.MOMENT_COMMENT);
    ("MOMENT_COMMENT", NotificationType.MOMENT_COMMENT);
    ("ARTIST_COMMENT", NotificationType.ARTIST_POST_COMMENT);
    ("ARTIST_POST", NotificationType.POST);
    ("ARTIST_MOMENT", NotificationType.MOMENT);
    ("ARTIST_LIVE_ON_AIR", NotificationType.LIVE);
    ("COMMUNITY_MEDIA", NotificationType.MEDIA);
    ("NOTICE", NotificationType.NOTICE);
    ("COMMUNITY_ANNIVERSARY", NotificationType.BIRTHDAY) ].

(** The [for] loop over [post_types.items()] and the [return] after it. *)
Fixpoint post_type_loop (items : list (string * NotificationType.t))
    (self : Notification) : result post_type_value :=
  match items with
  | (key, value) :: rest =>
      subject ← getitem (data self) "messageId";
      occurs ← contains key subject;
      if (occurs : bool) then Ok (Member value)
      else post_type_loop rest self
  | [] => Ok (Text "NOT IMPLEMENTED")
  end.

Definition post_type (self : Notification) : result post_type_value :=
  post_type_loop post_types self.

(** *** Payloads the constructor is meant for *)

Definition is_int (v : value) : bool :=
  match v with VInt _ => true | _ => false end.
Definition is_str (v : value) : bool :=
  match v with VStr _ => true | _ => false end.
Definition is_bool (v : value) : bool :=
  match v with VBool _ => true | _ => false end.
Definition is_str_or_none (v : value) : bool :=
  match v with VStr _ | VNone => true | _ => false end.

Definition present (d : gmap string value) (k : string) : bool :=
  match d !! k with Some _ => true | None => false end.

(** The key is there and its value passes [p]. *)
Definition holds (p : value -> bool) (d : gmap string value) (k : string)
  : bool :=
  match d !! k with Some v => p v | None => false end.

(** The key is missing, or its value passes [p]. *)
Definition optional (p : value -> bool) (d : gmap string value) (k : string)
  : bool :=
  match d !! k with Some v => p v | None => true end.

(** The payload has every key that [__init__] reads, in the shape in which
    it is read: [message] holds a mapping [values], the constructor of
    [PartialCommunity] accepts [community], and [authors] is missing,
    [None], or a list whose first element, when there is one, the
    constructor of [PartialMember] accepts.  Neither [webUrl] nor
    [messageId] is among these keys. *)
Definition has_required_keys (d : gmap string value) : bool :=
  present d "activityId" && present d "title" &&
  holds (fun m => match m with
                  | VDict m => holds (fun vs => match vs with
                                                | VDict _ => true
                                                | _ => false
                                                end) m "values"
                  | _ => false
                  end) d "message" &&
  present d "logoImageUrl" && present d "time" && present d "count" &&
  present d "read" &&
  holds (fun c => is_ok (new_PartialCommunity c)) d "community" &&
  optional (fun l => match l with
                     | VNone | VList [] => true
                     | VList (a :: _) => is_ok (new_PartialMember a)
                     | _ => false
                     end) d "authors".

(** The values have the types the class documents for its attributes. *)
Definition has_documented_types (d : gmap string value) : bool :=
  holds is_int d "activityId" && holds is_str d "title" &&
  holds (fun m => match m with
                  | VDict m => holds (fun vs => match vs with
                                                | VDict vs =>
                                                    optional is_str vs "ko" &&
                                                    optional is_str vs "ja" &&
                                                    optional is_str vs "en"
                                                | _ => false
                                                end) m "values"
                  | _ => false
                  end) d "message" &&
  optional is_str_or_none d "imageUrl" &&
  holds is_str d "logoImageUrl" && holds is_int d "time" &&
  holds is_int d "count" && holds is_bool d "read".

Definition valid_payload (d : gmap string value) : bool :=
  has_required_keys d && has_documented_types d.

End NotificationClass.

Arguments __init__ {_ _} new_PartialCommunity new_PartialMember data.
Arguments has_required_keys {_ _} new_PartialCommunity new_PartialMember d.
Arguments valid_payload {_ _} new_PartialCommunity new_PartialMember d.
Arguments data {_ _} _.
Arguments id {_ _} _.
Arguments author {_ _} _.
Arguments message_ko {_ _} _.
Arguments message_ja {_ _} _.
Arguments message_en {_ _} _.
Arguments community {_ _} _.
Arguments url {_ _} repr self.
Arguments post_id {_ _} self.
Arguments post_type {_ _} self.
Arguments post_type_loop {_ _} items self.
Arguments __eq__ {_ _} self other.
Arguments __str__ {_ _} self.
Arguments __hash__ {_ _} hash self.
Arguments ANotification {_ _} n.
Arguments AValue {_ _} v.
Arguments ACommunity {_ _} c.
Arguments AMember {_ _} m.
Arguments title {_ _} _.
Arguments image_url {_ _} _.
Arguments logo_image_url {_ _} _.
Arguments time_created {_ _} _.
Arguments count {_ _} _.
Arguments is_read {_ _} _.
Arguments __repr__ {_ _} repr self.

(** The keys that [__init__] subscripts the payload with. *)
Definition required_keys : list string :=
  [ "activityId"; "title"; "message"; "logoImageUrl"; "time"; "count";
    "read"; "community" ].

(** Every key that [__init__] reads, with [get] or by subscript. *)
Definition read_keys : list string :=
  [ "activityId"; "title"; "message"; "imageUrl"; "logoImageUrl"; "time";
    "count"; "read"; "community"; "authors" ].

(** The instance [n] with another payload in its slot [data]. *)
Definition with_data {PartialCommunity PartialMember : Type}
    (d : gmap string value) (n : Notification PartialCommunity PartialMember)
  : Notification PartialCommunity PartialMember :=
  {| data := d; id := id n; title := title n;
     message_ko := message_ko n; message_ja := message_ja n;
     message_en := message_en n; image_url := image_url n;
     logo_image_url := logo_image_url n; time_created := time_created n;
     count := count n; is_read := is_read n; community := community n;
     author := author n |}.


(** A collaborator that keeps the fragment it is given, for running the
    class on concrete payloads. *)
Definition keep (v : value) : result value := Ok v.

Definition sample (message_id : string) : gmap string value :=
  <["activityId" := VInt 7]> (
  <["title" := VStr "group"]> (
  <["message" := VDict (<["values" := VDict (<["en" := VStr "hello"]> ∅)]> ∅)]> (
  <["logoImageUrl" := VStr "logo"]> (
  <["time" := VInt 1700000000]> (
  <["count" := VInt 2]> (
  <["read" := VBool false]> (
  <["community" := VDict ∅]> (
  <["messageId" := VStr message_id]> ∅)))))))).


(** The instance that [__init__] builds from [sample message_id]. *)
Definition sample_notification (message_id : string)
  : Notification value value :=
  {| data := sample message_id;
     id := VInt 7;
     title := VStr "group";
     message_ko := VStr "";
     message_ja := VStr "";
     message_en := VStr "hello";
     image_url := VNone;
     logo_image_url := VStr "logo";
     time_created := VInt 1700000000;
     count := VInt 2;
     is_read := VBool false;
     community := VDict ∅;
     author := None |}.

(** A payload with one author. *)
Definition sample_with_author (message_id : string) : gmap string value :=
  <["authors" := VList [VDict (<["memberId" := VStr "m1"]> ∅)]]>
    (sample message_id).

(** A payload with neither [webUrl] nor [messageId]. *)
Definition sample_without_message_id : gmap string value :=
  delete "messageId" (sample "").

(** A [hash] and a [repr] for running the class: a number hashes to itself,
    as the small integers do, and nothing else is hashed or printed. *)
Definition sample_hash (v : value) : result Z :=
  match num v with
  | Some z => Ok z
  | None => Raise TypeError
  end.

Definition sample_repr (v : value) : string := "".

(** The same payload under another [messageId]. *)
Definition sample_notification_of (message_id : value)
  : Notification value value :=
  with_data (<["messageId" := message_id]> (sample "")) (sample_notification "").

(** ** What the claims speak of *)

(** [sub] occurs in [s] as a substring. *)
Definition occurs (sub s : string) : Prop :=
  ∃ pre post, s = pre +:+ sub +:+ post.

(** One digit, a hyphen, a non-empty run of digits. *)
Definition digit_hyphen_digits (f : string) : Prop :=
  ∃ c b, f = String c (String "-" b) ∧
         is_digit c = true ∧ b ≠ "" ∧ all_digits b = true.

(** A non-empty run of digits, a hyphen, a non-empty run of digits. *)
Definition digits_hyphen_digits (f : string) : Prop :=
  ∃ a b, f = a +:+ String "-" b ∧
         a ≠ "" ∧ all_digits a = true ∧ b ≠ "" ∧ all_digits b = true.

(** [s] holds a fragment of the shape [P]. *)
Definition has_fragment (P : string -> Prop) (s : string) : Prop :=
  ∃ pre f post, s = pre +:+ f +:+ post ∧ P f.

(** [f] is the first fragment of the shape [P] in [s], scanning from the
    left: none starts before it, and none that starts with it is longer. *)
Definition first_fragment (P : string -> Prop) (s f : string) : Prop :=
  ∃ pre post,
    s = pre +:+ f +:+ post ∧ P f ∧
    ∀ pre' f' post', s = pre' +:+ f' +:+ post' -> P f' ->
      (String.length pre < String.length pre')%nat ∨
      (String.length pre = String.length pre' ∧
       (String.length f' <= String.length f)%nat).

(** The longest run of digits that [s] starts with. *)
Fixpoint digit_run (s : string) : string :=
  match s with
  | String c s' => if is_digit c then String c (digit_run s') else ""
  | EmptyString => ""
  end.

(** ** Facts on strings *)

Section StringFacts.

Implicit Types s t pre post sub : string.

Lemma append_cons c s t : String c s +:+ t = String c (s +:+ t).
Proof. reflexivity. Qed.

Lemma append_nil_l s : "" +:+ s = s.
Proof. reflexivity. Qed.

Lemma append_nil_r s : s +:+ "" = s.
Proof.
  induction s as [|c s IH]; [done | by rewrite append_cons, IH].
Qed.

Lemma append_assoc s t u : (s +:+ t) +:+ u = s +:+ t +:+ u.
Proof.
  induction s as [|c s IH]; [done | by rewrite !append_cons, IH].
Qed.

Lemma length_append s t :
  String.length (s +:+ t) = (String.length s + String.length t)%nat.
Proof.
  induction s as [|c s IH]; [done | rewrite append_cons; simpl; by rewrite IH].
Qed.

(** Two splits of one string at the same place agree. *)
Lemma append_same_length s t s' t' :
  s +:+ t = s' +:+ t' -> String.length s = String.length s' ->
  s = s' ∧ t = t'.
Proof.
  revert s'. induction s as [|c s IH]; intros [|c' s']; try done.
  rewrite !append_cons. intros [= -> Heq] [= Hlen].
  destruct (IH _ Heq Hlen) as [-> ->]. done.
Qed.

Lemma prefix_append sub s :
  String.prefix sub s = true ↔ ∃ post, s = sub +:+ post.
Proof.
  revert s. induction sub as [|c sub IH]; intros s.
  - destruct s; split; eauto.
  - destruct s as [|c' s]; simpl.
    + split; [done | by intros [post ?]].
    + destruct (ascii_dec c c') as [->|Hne].
      * rewrite IH. split; intros [post Hpost]; exists post;
          rewrite append_cons in *; congruence.
      * split; [done | intros [post [= ? _]]; done].
Qed.

Lemma is_substring_unfold sub s :
  is_substring sub s =
  String.prefix sub s ||
  match s with
  | String _ s' => is_substring sub s'
  | EmptyString => false
  end.
Proof. by destruct s. Qed.

Lemma is_substring_occurs sub s : is_substring sub s = true ↔ occurs sub s.
Proof.
  unfold occurs. induction s as [|c s IH]; rewrite is_substring_unfold.
  - rewrite orb_false_r, prefix_append. split.
    + intros [post ->]. by exists "", post.
    + intros ([|? ?] & post & Heq); [eauto | done].
  - rewrite orb_true_iff, prefix_append, IH. split.
    + intros [[post ->] | (pre & post & ->)].
      * by exists "", post.
      * by exists (String c pre), post.
    + intros ([|c' pre] & post & Heq).
      * left. eauto.
      * right. rewrite append_cons in Heq. injection Heq as -> ->. eauto.
Qed.

Lemma is_substring_not_occurs sub s :
  is_substring sub s = false ↔ ¬ occurs sub s.
Proof.
  rewrite <- is_substring_occurs. by destruct (is_substring sub s).
Qed.

End StringFacts.

(** ** Facts on the two patterns *)

Section PatternFacts.

Implicit Types s t f pre post : string.

Lemma digit_run_split t :
  ∃ post, t = digit_run t +:+ post ∧
          all_digits (digit_run t) = true ∧ starts_with_digit post = false.
Proof.
  induction t as [|c t (post & Heq & Hall & Hpost)]; simpl.
  - by exists "".
  - destruct (is_digit c) eqn:Hc.
    + exists post. rewrite append_cons, <- Heq. simpl. by rewrite Hc, Hall.
    + exists (String c t). simpl. by rewrite Hc.
Qed.

Lemma digit_run_nonempty t : starts_with_digit t = true -> digit_run t ≠ "".
Proof. destruct t as [|c t]; simpl; [done | by intros ->]. Qed.

(** No run of digits at the head of [t] is longer than [digit_run t]. *)
Lemma digit_run_longest b post :
  all_digits b = true ->
  (String.length b <= String.length (digit_run (b +:+ post)))%nat.
Proof.
  induction b as [|c b IH]; simpl; [lia |].
  intros [Hc Hb]%andb_true_iff. rewrite Hc. simpl.
  specialize (IH Hb). lia.
Qed.

Lemma starts_with_digit_append b post :
  b ≠ "" -> all_digits b = true -> starts_with_digit (b +:+ post) = true.
Proof.
  destruct b as [|c b]; [done |]. simpl. by intros _ [? _]%andb_true_iff.
Qed.

Lemma many1_digit_finish s :
  re.many1 re.Digit s re.finish =
  if starts_with_digit s then Some (digit_run s) else None.
Proof.
  induction s as [|c s IH]; simpl; [done |].
  destruct (is_digit c) eqn:Hc; [| done].
  rewrite IH. destruct s as [|c' s]; simpl; [done |].
  by destruct (is_digit c').
Qed.

Lemma match_pattern s :
  re.match_here pattern s re.finish =
  match s with
  | String c (String h t) =>
      if is_digit c && Ascii.eqb "-" h && starts_with_digit t
      then Some (String c (String h (digit_run t)))
      else None
  | _ => None
  end.
Proof.
  destruct s as [|c [|h t]]; cbn -[Ascii.eqb is_digit re.many1].
  - done.
  - by destruct (is_digit c).
  - destruct (is_digit c); [| done].
    destruct (Ascii.eqb "-" h); [| done].
    rewrite many1_digit_finish. by destruct (starts_with_digit t).
Qed.

Lemma scan_unfold r s :
  re.scan r s =
  match re.match_here r s re.finish with
  | Some m => Some m
  | None =>
      match s with
      | String _ s' => re.scan r s'
      | EmptyString => None
      end
  end.
Proof. by destruct s. Qed.

(** A match of [pattern] at the head of [s]: what it is. *)
Lemma match_pattern_Some s f :
  re.match_here pattern s re.finish = Some f ->
  ∃ c t post, s = String c (String "-" t) ∧ f = String c (String "-" (digit_run t)) ∧
              t = digit_run t +:+ post ∧ is_digit c = true ∧
              digit_run t ≠ "" ∧ all_digits (digit_run t) = true ∧
              starts_with_digit post = false.
Proof.
  rewrite match_pattern. destruct s as [|c [|h t]]; try done.
  destruct (is_digit c) eqn:Hc; [| done].
  destruct (Ascii.eqb_spec "-" h) as [<-|]; [| done].
  destruct (starts_with_digit t) eqn:Ht; [| done]. cbn [andb].
  intros [= <-]. destruct (digit_run_split t) as (post & Heq & Hall & Hpost).
  exists c, t, post. repeat split; try done. by apply digit_run_nonempty.
Qed.

(** A fragment at the head of [s] is matched there. *)
Lemma match_pattern_fragment f post :
  digit_hyphen_digits f ->
  is_Some (re.match_here pattern (f +:+ post) re.finish).
Proof.
  intros (c & b & -> & Hc & Hne & Hb). rewrite match_pattern.
  rewrite !append_cons, Hc, Ascii.eqb_refl. cbn [andb].
  by rewrite starts_with_digit_append.
Qed.

(** The scan for [pattern] stops at the first fragment, and takes all the
    digits that follow its hyphen. *)
Lemma scan_pattern_first s f :
  re.scan pattern s = Some f -> first_fragment digit_hyphen_digits s f.
Proof.
  induction s as [|x s IH]; rewrite scan_unfold;
    destruct (re.match_here pattern _ re.finish) as [m|] eqn:Hm; try done.
  - intros [= ->].
    destruct (match_pattern_Some _ _ Hm)
      as (c & t & post & Hs & -> & Ht & Hc & Hne & Hall & Hpost).
    exists "", post. split; [| split].
    + rewrite Hs, append_nil_l, !append_cons. by rewrite <- Ht.
    + by exists c, (digit_run t).
    + intros [|x' pre'] f' post' Hs' (c' & b' & -> & _ & _ & Hb');
        [right | left; simpl; lia].
      split; [done |]. rewrite Hs, append_nil_l, !append_cons in Hs'.
      injection Hs' as _ ->. simpl.
      pose proof (digit_run_longest b' post' Hb'). lia.
  - intros (pre & post & -> & HP & Hfirst)%IH.
    exists (String x pre), post. split; [done | split; [done |]].
    intros [|x' pre'] f' post' Hs' HP'.
    + rewrite append_nil_l in Hs'. rewrite Hs' in Hm.
      destruct (match_pattern_fragment f' post' HP') as [? Hsome]. congruence.
    + rewrite !append_cons in Hs'. injection Hs' as _ Hs'.
      destruct (Hfirst _ _ _ Hs' HP') as [? | [? ?]]; simpl; [left | right]; lia.
Qed.

Lemma scan_pattern_found s :
  has_fragment digit_hyphen_digits s -> is_Some (re.scan pattern s).
Proof.
  intros (pre & f & post & -> & HP).
  induction pre as [|x pre IH]; rewrite scan_unfold;
    destruct (re.match_here pattern _ re.finish) as [m|] eqn:Hm; try done.
  rewrite append_nil_l in Hm.
  destruct (match_pattern_fragment f post HP) as [? Hsome]. congruence.
Qed.

(** The last digit of the run before the hyphen starts a fragment with one
    digit before the hyphen. *)
Lemma last_digit a :
  a ≠ "" -> all_digits a = true ->
  ∃ a' c, a = a' +:+ String c "" ∧ is_digit c = true.
Proof.
  induction a as [|c a IH]; [done |]. intros _ [Hc Ha]%andb_true_iff.
  destruct a as [|c' a].
  - by exists "", c.
  - destruct IH as (a' & d & -> & Hd); [done | done |].
    by exists (String c a'), d.
Qed.

Lemma digit_hyphen_digits_many f :
  digit_hyphen_digits f -> digits_hyphen_digits f.
Proof.
  intros (c & b & -> & Hc & Hne & Hb). exists (String c ""), b.
  repeat split; try done. simpl. by rewrite Hc.
Qed.

Lemma has_fragment_one s :
  has_fragment digits_hyphen_digits s ↔ has_fragment digit_hyphen_digits s.
Proof.
  split.
  - intros (pre & f & post & -> & a & b & -> & Hne & Ha & Hb).
    destruct (last_digit a Hne Ha) as (a' & c & -> & Hc).
    exists (pre +:+ a'), (String c (String "-" b)), post. split.
    + by rewrite !append_assoc, !append_cons.
    + by exists c, b.
  - intros (pre & f & post & -> & HP). exists pre, f, post.
    split; [done | by apply digit_hyphen_digits_many].
Qed.

Lemma scan_pattern_no_digit s : no_digit s = true -> re.scan pattern s = None.
Proof.
  induction s as [|c s IH]; rewrite scan_unfold, match_pattern; [done |].
  simpl. intros [Hc Hs]%andb_true_iff. apply negb_true_iff in Hc.
  rewrite Hc. destruct s; auto.
Qed.

Lemma match_digits s :
  re.match_here digits s re.finish =
  if starts_with_digit s then Some (digit_run s) else None.
Proof. apply many1_digit_finish. Qed.

Lemma scan_digits_no_digit s : no_digit s = true -> re.scan digits s = None.
Proof.
  induction s as [|c s IH]; rewrite scan_unfold, match_digits; [done |].
  simpl. intros [Hc Hs]%andb_true_iff. apply negb_true_iff in Hc.
  rewrite Hc. auto.
Qed.

Lemma digit_run_append r post :
  all_digits r = true -> starts_with_digit post = false ->
  digit_run (r +:+ post) = r.
Proof.
  intros Hr Hpost. induction r as [|c r IH].
  - destruct post as [|c post]; [done |]. simpl in *. by rewrite Hpost.
  - simpl in Hr. apply andb_true_iff in Hr as [Hc Hr].
    rewrite append_cons. simpl. by rewrite Hc, IH.
Qed.

(** The scan for [digits] returns the first maximal run of digits. *)
Lemma scan_digits_first pre r post :
  no_digit pre = true -> r ≠ "" -> all_digits r = true ->
  starts_with_digit post = false ->
  re.scan digits (pre +:+ r +:+ post) = Some r.
Proof.
  intros Hpre Hne Hr Hpost.
  induction pre as [|x pre IH]; rewrite scan_unfold, match_digits.
  - rewrite append_nil_l, starts_with_digit_append by done.
    by rewrite digit_run_append.
  - simpl in Hpre. apply andb_true_iff in Hpre as [Hx Hpre].
    apply negb_true_iff in Hx. rewrite append_cons. simpl. rewrite Hx. auto.
Qed.

Lemma first_run_exists s :
  no_digit s = false ->
  ∃ pre r post, s = pre +:+ r +:+ post ∧ no_digit pre = true ∧ r ≠ "" ∧
                all_digits r = true ∧ starts_with_digit post = false.
Proof.
  induction s as [|c s IH]; [done |]. simpl.
  destruct (is_digit c) eqn:Hc; simpl.
  - intros _. destruct (digit_run_split (String c s)) as (post & Heq & Hall & Hpost).
    exists "", (digit_run (String c s)), post. repeat split; try done.
    apply digit_run_nonempty. simpl. done.
  - intros (pre & r & post & -> & Hpre & Hne & Hr & Hpost)%IH.
    exists (String c pre), r, post. repeat split; try done.
    simpl. by rewrite Hc.
Qed.

(** The first search fails exactly on the strings without a fragment. *)
Lemma scan_pattern_None s :
  re.scan pattern s = None ↔ ¬ has_fragment digits_hyphen_digits s.
Proof.
  split.
  - intros Hscan [f Hf]%has_fragment_one%scan_pattern_found. congruence.
  - intros Hnone. destruct (re.scan pattern s) as [f|] eqn:Hscan; [| done].
    destruct Hnone. apply has_fragment_one.
    destruct (scan_pattern_first _ _ Hscan) as (pre & post & ? & ? & _).
    by exists pre, f, post.
Qed.

End PatternFacts.

(** ** The class on concrete payloads *)

Example init_sample message_id :
  __init__ keep keep (sample message_id) = Ok (sample_notification message_id).
Proof. reflexivity. Qed.

Example valid_sample message_id :
  valid_payload keep keep (sample message_id) = true.
Proof. reflexivity. Qed.

Example post_id_feed_comment :
  post_id (sample_notification "c2p-T_FEED_COMMENT-3-12345") = Ok "3-12345".
Proof. reflexivity. Qed.

Example post_id_notice :
  post_id (sample_notification "NOTICE-98765") = Ok "98765".
Proof. reflexivity. Qed.

Example post_type_notice :
  post_type (sample_notification "NOTICE-98765")
  = Ok (Member NotificationType.NOTICE).
Proof. reflexivity. Qed.

Example post_type_live :
  post_type (sample_notification "c2p-ARTIST_LIVE_ON_AIR-2-777")
  = Ok (Member NotificationType.LIVE).
Proof. reflexivity. Qed.

Example post_type_unknown :
  post_type (sample_notification "UNKNOWN_TYPE-1") = Ok (Text "NOT IMPLEMENTED").
Proof. reflexivity. Qed.

(** ** Facts on the constructor and the loop of [post_type] *)

Section NotificationFacts.

Context {PartialCommunity PartialMember : Type}.
Variable new_PartialCommunity : value -> result PartialCommunity.
Variable new_PartialMember : value -> result PartialMember.
Variable hash : value -> result Z.
Variable repr : value -> string.

Implicit Types self other : Notification PartialCommunity PartialMember.
Implicit Types d : gmap string value.
Implicit Types s : string.

Local Notation init := (__init__ new_PartialCommunity new_PartialMember).

(** What [__init__] builds from a payload that has the keys it reads. *)
Lemma init_required_keys d :
  has_required_keys new_PartialCommunity new_PartialMember d = true ->
  ∃ self m vs,
    init d = Ok self ∧ data self = d ∧ d !! "activityId" = Some (id self) ∧
    d !! "message" = Some (VDict m) ∧ m !! "values" = Some (VDict vs) ∧
    message_ko self = default (VStr "") (vs !! "ko") ∧
    message_ja self = default (VStr "") (vs !! "ja") ∧
    message_en self = default (VStr "") (vs !! "en") ∧
    match d !! "authors" with
    | Some (VList (a :: _)) =>
        ∃ member, new_PartialMember a = Ok member ∧ author self = Some member
    | _ => author self = None
    end.
Proof.
  unfold has_required_keys, present, holds, optional.
  intros H. repeat (apply andb_true_iff in H as [H ?]).
  destruct (d !! "activityId") as [vid|] eqn:Eid; [| done].
  destruct (d !! "title") as [vtitle|] eqn:Etitle; [| done].
  destruct (d !! "message") as [[| | | | |m]|] eqn:Emsg; try done.
  destruct (m !! "values") as [[| | | | |vs]|] eqn:Evs; try done.
  destruct (d !! "logoImageUrl") as [vlogo|] eqn:Elogo; [| done].
  destruct (d !! "time") as [vtime|] eqn:Etime; [| done].
  destruct (d !! "count") as [vcount|] eqn:Ecount; [| done].
  destruct (d !! "read") as [vread|] eqn:Eread; [| done].
  destruct (d !! "community") as [vcomm|] eqn:Ecomm; [| done].
  destruct (new_PartialCommunity vcomm) as [comm|] eqn:Enew; [| done].
  assert (Hinit : ∀ author_value,
    (if truthy (dict_get d "authors")
     then l ← getitem d "authors"; a ← subscript_index l 0;
          Some <$> new_PartialMember a
     else Ok None) = Ok author_value ->
    ∃ self, init d = Ok self ∧ data self = d ∧ id self = vid ∧
            message_ko self = default (VStr "") (vs !! "ko") ∧
            message_ja self = default (VStr "") (vs !! "ja") ∧
            message_en self = default (VStr "") (vs !! "en") ∧
            author self = author_value).
  { intros author_value Hauthor. unfold __init__.
    rewrite Hauthor. unfold getitem.
    rewrite Eid, Etitle, Emsg, Elogo, Etime, Ecount, Eread, Ecomm.
    cbn [mbind result_bind subscript getitem get_method].
    unfold getitem. rewrite Evs, Enew.
    cbn [mbind result_bind get_method mret result_ret].
    eexists. split; [reflexivity |]. by cbn. }
  unfold dict_get, getitem in Hinit.
  destruct (d !! "authors") as [[| | | |[|a l]|]|] eqn:Eauth; try done.
  - destruct (Hinit None) as (self & ? & ? & ? & ? & ? & ? & ?); [done |].
    exists self, m, vs. by subst.
  - destruct (Hinit None) as (self & ? & ? & ? & ? & ? & ? & ?); [done |].
    exists self, m, vs. by subst.
  - destruct (new_PartialMember a) as [member|] eqn:Emember; [| done].
    destruct (Hinit (Some member)) as (self & ? & ? & ? & ? & ? & ? & ?).
    { cbn. by rewrite Emember. }
    exists self, m, vs. subst. repeat split; try done. by exists member.
  - destruct (Hinit None) as (self & ? & ? & ? & ? & ? & ? & ?); [done |].
    exists self, m, vs. by subst.
Qed.

Lemma valid_payload_required d :
  valid_payload new_PartialCommunity new_PartialMember d = true ->
  has_required_keys new_PartialCommunity new_PartialMember d = true.
Proof. by intros [? _]%andb_true_iff. Qed.

Lemma valid_payload_int_id d :
  valid_payload new_PartialCommunity new_PartialMember d = true ->
  ∃ z, d !! "activityId" = Some (VInt z).
Proof.
  intros [_ H]%andb_true_iff. unfold has_documented_types in H.
  repeat (apply andb_true_iff in H as [H _]). unfold holds in H.
  destruct (d !! "activityId") as [[]|]; try done. eauto.
Qed.

Lemma py_eq_int a b : py_eq (VInt a) (VInt b) = true ↔ a = b.
Proof. cbn. rewrite bool_decide_eq_true. split; congruence. Qed.

(** [post_id] on a string: the first search, then the second. *)
Lemma post_id_scan self s :
  data self !! "messageId" = Some (VStr s) ->
  post_id self =
  match re.scan pattern s with
  | Some f => Ok f
  | None => re.group0 (re.scan digits s)
  end.
Proof.
  intros H. unfold post_id, getitem. rewrite H.
  cbn [mbind result_bind re.search]. by destruct (re.scan pattern s).
Qed.

(** The loop passes over the markers that do not occur. *)
Lemma post_type_loop_skip self s before rest :
  data self !! "messageId" = Some (VStr s) ->
  Forall (fun kv => ¬ occurs kv.1 s) before ->
  post_type_loop (before ++ rest) self = post_type_loop rest self.
Proof.
  intros H. induction 1 as [|[key value] before Hkey _ IH]; [done |].
  cbn [app post_type_loop]. unfold getitem. rewrite H.
  cbn [mbind result_bind contains].
  apply is_substring_not_occurs in Hkey. cbn [fst] in Hkey. by rewrite Hkey.
Qed.

Lemma post_type_loop_hit self s key value rest :
  data self !! "messageId" = Some (VStr s) -> occurs key s ->
  post_type_loop ((key, value) :: rest) self = Ok (Member value).
Proof.
  intros H Hkey. cbn [post_type_loop]. unfold getitem. rewrite H.
  cbn [mbind result_bind contains].
  apply is_substring_occurs in Hkey. by rewrite Hkey.
Qed.

(** Two first fragments of one string, each of the shape of the other,
    are one fragment. *)
Lemma first_fragment_agree (P Q : string -> Prop) s f g :
  first_fragment P s f -> first_fragment Q s g -> Q f -> P g -> f = g.
Proof.
  intros (pre & post & Hs & _ & Hf) (pre' & post' & Hs' & _ & Hg) HQ HP.
  destruct (Hf _ _ _ Hs' HP) as [? | [Hlen ?]];
    destruct (Hg _ _ _ Hs HQ) as [? | [Hlen' ?]]; try lia.
  rewrite Hs in Hs'.
  destruct (append_same_length _ _ _ _ Hs' Hlen) as [_ Hrest].
  apply append_same_length in Hrest as [? _]; [done | lia].
Qed.

(** ** The claims *)

(** C1 (amended).  When [messageId] holds a fragment [<digits>-<digits>],
    [post_id] returns the first fragment made of ONE digit, a hyphen and
    the whole run of digits after it, verbatim, hyphen included.  When the
    first [<digits>-<digits>] fragment has a single digit before its
    hyphen, that is the fragment returned, as for
    c2p-T_FEED_COMMENT-3-12345 and 3-12345. *)
Theorem post_id_first_one_digit_fragment self s :
  data self !! "messageId" = Some (VStr s) ->
  has_fragment digits_hyphen_digits s ->
  ∃ f, post_id self = Ok f ∧
       first_fragment digit_hyphen_digits s f ∧
       ∀ g, first_fragment digits_hyphen_digits s g ->
            digit_hyphen_digits g -> f = g.
Proof.
  intros Hs Hfrag. rewrite (post_id_scan _ _ Hs).
  apply has_fragment_one, scan_pattern_found in Hfrag as [f Hscan].
  rewrite Hscan. exists f.
  pose proof (scan_pattern_first _ _ Hscan) as Hfirst.
  split; [done | split; [done |]]. intros g Hg Hone.
  apply (first_fragment_agree _ _ _ _ _ Hfirst Hg); [| done].
  destruct Hfirst as (_ & _ & _ & Hf & _). by apply digit_hyphen_digits_many.
Qed.

(** C2.  [post_type] goes through the table of markers in the order of
    its declaration and returns the category of the first marker that
    occurs in [messageId].  So a [messageId] in which NOTICE occurs, and
    none of the ten markers declared before it, has the notice category;
    one in which ARTIST_LIVE_ON_AIR occurs, and none of the eight markers
    declared before it, has the live category. *)
Theorem post_type_first_marker self s :
  data self !! "messageId" = Some (VStr s) ->
  (∀ before key value after,
     post_types = (before ++ (key, value) :: after)%list ->
     Forall (fun kv => ¬ occurs kv.1 s) before ->
     occurs key s ->
     post_type self = Ok (Member value)) ∧
  (occurs "NOTICE" s ->
   Forall (fun kv => ¬ occurs kv.1 s) (take 10 post_types) ->
   post_type self = Ok (Member NotificationType.NOTICE)) ∧
  (occurs "ARTIST_LIVE_ON_AIR" s ->
   Forall (fun kv => ¬ occurs kv.1 s) (take 8 post_types) ->
   post_type self = Ok (Member NotificationType.LIVE)).
Proof.
  intros Hs.
  assert (Hfirst : ∀ before key value after,
    post_types = (before ++ (key, value) :: after)%list ->
    Forall (fun kv => ¬ occurs kv.1 s) before ->
    occurs key s ->
    post_type self = Ok (Member value)).
  { intros before key value after Htable Hbefore Hkey. unfold post_type.
    rewrite Htable, (post_type_loop_skip _ _ _ _ Hs Hbefore).
    by apply (post_type_loop_hit _ s). }
  split; [done | split].
  - intros Hkey Hbefore.
    by apply (Hfirst (take 10 post_types) "NOTICE" NotificationType.NOTICE
                (drop 11 post_types)).
  - intros Hkey Hbefore.
    by apply (Hfirst (take 8 post_types) "ARTIST_LIVE_ON_AIR"
                NotificationType.LIVE (drop 9 post_types)).
Qed.

(** C3.  When [messageId] holds no digit at all, hence no fragment either,
    reading [post_id] raises (an AttributeError, from [group] on [None]);
    no value is returned. *)
Theorem post_id_without_digit_raises self s :
  data self !! "messageId" = Some (VStr s) ->
  no_digit s = true ->
  post_id self = Raise AttributeError.
Proof.
  intros Hs Hno. rewrite (post_id_scan _ _ Hs).
  by rewrite scan_pattern_no_digit, scan_digits_no_digit.
Qed.

(** C4.  When [messageId] holds no fragment [<digits>-<digits>] but holds
    a digit, [post_id] returns the first run of digits from the left, as
    98765 for NOTICE-98765. *)
Theorem post_id_digit_run_fallback self s :
  data self !! "messageId" = Some (VStr s) ->
  ¬ has_fragment digits_hyphen_digits s ->
  no_digit s = false ->
  ∃ pre run post,
    s = pre +:+ run +:+ post ∧ no_digit pre = true ∧ run ≠ "" ∧
    all_digits run = true ∧ starts_with_digit post = false ∧
    post_id self = Ok run.
Proof.
  intros Hs Hfrag Hdigit. rewrite (post_id_scan _ _ Hs).
  destruct (first_run_exists s Hdigit)
    as (pre & run & post & -> & Hpre & Hne & Hrun & Hpost).
  exists pre, run, post. repeat split; try done.
  destruct (re.scan pattern _) as [f|] eqn:Hscan.
  - destruct Hfrag. apply has_fragment_one.
    destruct (scan_pattern_first _ _ Hscan) as (pre' & post' & ? & ? & _).
    by exists pre', f, post'.
  - by rewrite scan_digits_first.
Qed.

(** C5.  When no marker of the table occurs in [messageId], [post_type]
    returns the text NOT IMPLEMENTED and raises nothing. *)
Theorem post_type_unclassified self s :
  data self !! "messageId" = Some (VStr s) ->
  Forall (fun kv => ¬ occurs kv.1 s) post_types ->
  post_type self = Ok (Text "NOT IMPLEMENTED").
Proof.
  intros Hs Hnone. unfold post_type.
  rewrite <- (app_nil_r post_types).
  by rewrite (post_type_loop_skip _ _ _ _ Hs Hnone).
Qed.

(** C6.  Comparing a notification with anything that is not a
    notification raises NotImplementedError; comparing two notifications
    compares their ids, so that with integer ids the result is true
    exactly when the ids are the same. *)
Theorem eq_by_id_or_raise self other
    (x : object PartialCommunity PartialMember) :
  (∀ n, x ≠ ANotification n) ->
  __eq__ self x = Raise NotImplementedError ∧
  __eq__ self (ANotification other) = Ok (py_eq (id self) (id other)) ∧
  ∀ a b, id self = VInt a -> id other = VInt b ->
         (__eq__ self (ANotification other) = Ok true ↔ a = b) ∧
         (__eq__ self (ANotification other) = Ok false ↔ a ≠ b).
Proof.
  intros Hx. split; [| split; [done |]].
  - destruct x as [n| | |]; [by destruct (Hx n) | done..].
  - intros a b Ha Hb. unfold __eq__. rewrite Ha, Hb.
    pose proof (py_eq_int a b) as Hab.
    destruct (py_eq (VInt a) (VInt b)); split; split.
    + intros _. by apply Hab.
    + done.
    + done.
    + intros Hne. destruct Hne. by apply Hab.
    + done.
    + by intros ?%Hab.
    + by intros _ ?%Hab.
    + done.
Qed.

(** C7.  A notification built from a valid payload has the payload's
    [activityId] as its [id]; its hash is the hash of [id] and of nothing
    else, so equal ids and equal notifications have equal hashes; and
    [==] between such notifications is reflexive, symmetric and
    transitive. *)
Theorem id_hash_eq_consistent d1 d2 d3 :
  valid_payload new_PartialCommunity new_PartialMember d1 = true ->
  valid_payload new_PartialCommunity new_PartialMember d2 = true ->
  valid_payload new_PartialCommunity new_PartialMember d3 = true ->
  ∃ n1 n2 n3,
    init d1 = Ok n1 ∧ init d2 = Ok n2 ∧ init d3 = Ok n3 ∧
    d1 !! "activityId" = Some (id n1) ∧
    __hash__ hash n1 = hash (id n1) ∧
    (id n1 = id n2 -> __hash__ hash n1 = __hash__ hash n2) ∧
    (__eq__ n1 (ANotification n2) = Ok true ->
     __hash__ hash n1 = __hash__ hash n2) ∧
    __eq__ n1 (ANotification n1) = Ok true ∧
    __eq__ n1 (ANotification n2) = __eq__ n2 (ANotification n1) ∧
    (__eq__ n1 (ANotification n2) = Ok true ->
     __eq__ n2 (ANotification n3) = Ok true ->
     __eq__ n1 (ANotification n3) = Ok true).
Proof.
  intros H1 H2 H3.
  destruct (valid_payload_int_id _ H1) as [z1 Hz1].
  destruct (valid_payload_int_id _ H2) as [z2 Hz2].
  destruct (valid_payload_int_id _ H3) as [z3 Hz3].
  destruct (init_required_keys _ (valid_payload_required _ H1))
    as (n1 & _ & _ & Hn1 & _ & Hid1 & _).
  destruct (init_required_keys _ (valid_payload_required _ H2))
    as (n2 & _ & _ & Hn2 & _ & Hid2 & _).
  destruct (init_required_keys _ (valid_payload_required _ H3))
    as (n3 & _ & _ & Hn3 & _ & Hid3 & _).
  exists n1, n2, n3. repeat (split; [done |]).
  assert (id n1 = VInt z1) as E1 by congruence.
  assert (id n2 = VInt z2) as E2 by congruence.
  assert (id n3 = VInt z3) as E3 by congruence.
  unfold __hash__, __eq__. rewrite E1, E2, E3.
  repeat split.
  - by intros [= ->].
  - intros [= Heq]. by rewrite (proj1 (py_eq_int z1 z2) Heq).
  - f_equal. by apply py_eq_int.
  - f_equal. destruct (py_eq (VInt z1) (VInt z2)) eqn:E12,
      (py_eq (VInt z2) (VInt z1)) eqn:E21; try done.
    + apply py_eq_int in E12 as ->. by rewrite (proj2 (py_eq_int z2 z2)) in E21.
    + apply py_eq_int in E21 as ->. by rewrite (proj2 (py_eq_int z1 z1)) in E12.
  - intros [= ->%py_eq_int] [= ->%py_eq_int]. f_equal. by apply py_eq_int.
Qed.

(** C8.  A notification built from a valid payload has an author exactly
    when the payload has a non-empty [authors] list, and the author is
    then built from the first element of the list; without the key, or
    with an empty list, the author is [None]. *)
Theorem author_iff_authors_nonempty d :
  valid_payload new_PartialCommunity new_PartialMember d = true ->
  ∃ self,
    init d = Ok self ∧
    (is_Some (author self) ↔ ∃ a l, d !! "authors" = Some (VList (a :: l))) ∧
    (∀ a l, d !! "authors" = Some (VList (a :: l)) ->
            ∃ member, new_PartialMember a = Ok member ∧
                      author self = Some member) ∧
    (d !! "authors" = None ∨ d !! "authors" = Some (VList []) ->
     author self = None).
Proof.
  intros Hvalid.
  destruct (init_required_keys _ (valid_payload_required _ Hvalid))
    as (self & _ & _ & Hinit & _ & _ & _ & _ & _ & _ & _ & Hauthor).
  exists self. split; [done |].
  destruct (d !! "authors") as [[| | | |[|a l]|]|] eqn:Eauthors;
    try (rewrite Hauthor;
         split; [split; [by intros [? ?] | by intros (? & ? & ?)] |];
         split; [by intros ? ? ? | done]).
  destruct Hauthor as (member & Hmember & ->).
  split; [split; [intros _; by exists a, l | done] |].
  split; [| by intros [? | ?]].
  intros ? ? [= <- <-]. by exists member.
Qed.

(** C9.  A notification built from a valid payload has, for each of the
    locales ko, ja and en, the message under [message.values] when the
    key is there and the empty string when it is missing; the
    construction does not raise. *)
Theorem missing_locale_empty_string d :
  valid_payload new_PartialCommunity new_PartialMember d = true ->
  ∃ self m vs,
    init d = Ok self ∧
    d !! "message" = Some (VDict m) ∧ m !! "values" = Some (VDict vs) ∧
    (vs !! "ko" = None -> message_ko self = VStr "") ∧
    (vs !! "ja" = None -> message_ja self = VStr "") ∧
    (vs !! "en" = None -> message_en self = VStr "") ∧
    (∀ v, vs !! "ko" = Some v -> message_ko self = v) ∧
    (∀ v, vs !! "ja" = Some v -> message_ja self = v) ∧
    (∀ v, vs !! "en" = Some v -> message_en self = v).
Proof.
  intros Hvalid.
  destruct (init_required_keys _ (valid_payload_required _ Hvalid))
    as (self & m & vs & Hinit & _ & _ & Hm & Hvs & Hko & Hja & Hen & _).
  exists self, m, vs. rewrite Hko, Hja, Hen.
  repeat split; try done; by intros; simplify_option_eq.
Qed.

End NotificationFacts.

(** ** The claims on concrete payloads *)

Lemma post_id_first_one_digit_fragment_witness :
  ∃ f, post_id (sample_notification "c2p-T_FEED_COMMENT-3-12345") = Ok f ∧
       first_fragment digit_hyphen_digits "c2p-T_FEED_COMMENT-3-12345" f ∧
       ∀ g, first_fragment digits_hyphen_digits "c2p-T_FEED_COMMENT-3-12345" g ->
            digit_hyphen_digits g -> f = g.
Proof.
  apply post_id_first_one_digit_fragment.
  - reflexivity.
  - exists "c2p-T_FEED_COMMENT-", "3-12345", "". split; [reflexivity |].
    exists "3", "12345". repeat split; done.
Defined.

(** C1 as the claim has it fails on a fragment with two digits before the
    hyphen: the first [<digits>-<digits>] fragment of 12-345 is 12-345, and
    [post_id] returns 2-345. *)
Lemma post_id_two_digit_section :
  ∃ f, data (sample_notification "12-345") !! "messageId" = Some (VStr "12-345") ∧
       first_fragment digits_hyphen_digits "12-345" f ∧
       post_id (sample_notification "12-345") = Ok "2-345" ∧
       f ≠ "2-345".
Proof.
  exists "12-345". split; [reflexivity |]. split; [| split; [reflexivity | done]].
  exists "", "". split; [reflexivity |]. split.
  - exists "12", "345". repeat split; done.
  - intros [|c pre'] f' post' Hs _; [right | left; simpl; lia].
    split; [done |]. apply (f_equal String.length) in Hs.
    rewrite append_nil_l, length_append in Hs. simpl in *. lia.
Qed.

Lemma post_type_first_marker_witness :
  post_type (sample_notification "NOTICE-98765")
  = Ok (Member NotificationType.NOTICE) ∧
  post_type (sample_notification "c2p-ARTIST_LIVE_ON_AIR-2-777")
  = Ok (Member NotificationType.LIVE) ∧
  post_type (sample_notification "c2p-ARTIST_MOMENT_COMMENT-1-5")
  = Ok (Member NotificationType.MOMENT_COMMENT).
Proof.
  split; [| split].
  - destruct (post_type_first_marker (sample_notification "NOTICE-98765")
                "NOTICE-98765") as (_ & Hnotice & _); [reflexivity |].
    apply Hnotice.
    + by exists "", "-98765".
    + repeat constructor; apply is_substring_not_occurs; reflexivity.
  - destruct (post_type_first_marker
                (sample_notification "c2p-ARTIST_LIVE_ON_AIR-2-777")
                "c2p-ARTIST_LIVE_ON_AIR-2-777") as (_ & _ & Hlive);
      [reflexivity |].
    apply Hlive.
    + by exists "c2p-", "-2-777".
    + repeat constructor; apply is_substring_not_occurs; reflexivity.
  - destruct (post_type_first_marker
                (sample_notification "c2p-ARTIST_MOMENT_COMMENT-1-5")
                "c2p-ARTIST_MOMENT_COMMENT-1-5") as (Hfirst & _ & _);
      [reflexivity |].
    apply (Hfirst (take 3 post_types) "_MOMENT_COMMENT"
             NotificationType.MOMENT_COMMENT (drop 4 post_types)).
    + reflexivity.
    + repeat constructor; apply is_substring_not_occurs; reflexivity.
    + by exists "c2p-ARTIST", "-1-5".
Defined.

Lemma post_id_without_digit_raises_witness :
  post_id (sample_notification "UNKNOWN_TYPE-") = Raise AttributeError.
Proof.
  apply (post_id_without_digit_raises _ "UNKNOWN_TYPE-"); reflexivity.
Defined.

Lemma post_id_digit_run_fallback_witness :
  ∃ pre run post,
    "NOTICE-98765" = pre +:+ run +:+ post ∧ no_digit pre = true ∧ run ≠ "" ∧
    all_digits run = true ∧ starts_with_digit post = false ∧
    post_id (sample_notification "NOTICE-98765") = Ok run.
Proof.
  apply post_id_digit_run_fallback.
  - reflexivity.
  - apply scan_pattern_None. reflexivity.
  - reflexivity.
Defined.

Lemma post_type_unclassified_witness :
  post_type (sample_notification "UNKNOWN_TYPE-1") = Ok (Text "NOT IMPLEMENTED").
Proof.
  apply (post_type_unclassified _ "UNKNOWN_TYPE-1").
  - reflexivity.
  - repeat constructor; apply is_substring_not_occurs; reflexivity.
Defined.

Lemma eq_by_id_or_raise_witness :
  __eq__ (sample_notification "a") (AValue (VInt 7)) = Raise NotImplementedError ∧
  __eq__ (sample_notification "a") (ANotification (sample_notification "b"))
  = Ok (py_eq (VInt 7) (VInt 7)) ∧
  ∀ a b, VInt 7 = VInt a -> VInt 7 = VInt b ->
         (__eq__ (sample_notification "a")
                 (ANotification (sample_notification "b")) = Ok true ↔ a = b) ∧
         (__eq__ (sample_notification "a")
                 (ANotification (sample_notification "b")) = Ok false ↔ a ≠ b).
Proof.
  apply (eq_by_id_or_raise (sample_notification "a") (sample_notification "b")
           (AValue (VInt 7))).
  intros n. discriminate.
Defined.

Lemma id_hash_eq_consistent_witness :
  ∃ n1 n2 n3,
    __init__ keep keep (sample "a") = Ok n1 ∧
    __init__ keep keep (sample "b") = Ok n2 ∧
    __init__ keep keep (sample "c") = Ok n3 ∧
    sample "a" !! "activityId" = Some (id n1) ∧
    __hash__ sample_hash n1 = sample_hash (id n1) ∧
    (id n1 = id n2 -> __hash__ sample_hash n1 = __hash__ sample_hash n2) ∧
    (__eq__ n1 (ANotification n2) = Ok true ->
     __hash__ sample_hash n1 = __hash__ sample_hash n2) ∧
    __eq__ n1 (ANotification n1) = Ok true ∧
    __eq__ n1 (ANotification n2) = __eq__ n2 (ANotification n1) ∧
    (__eq__ n1 (ANotification n2) = Ok true ->
     __eq__ n2 (ANotification n3) = Ok true ->
     __eq__ n1 (ANotification n3) = Ok true).
Proof.
  apply (id_hash_eq_consistent keep keep sample_hash); reflexivity.
Defined.

Lemma author_iff_authors_nonempty_witness :
  ∃ self,
    __init__ keep keep (sample_with_author "a") = Ok self ∧
    (is_Some (author self) ↔
     ∃ a l, sample_with_author "a" !! "authors" = Some (VList (a :: l))) ∧
    (∀ a l, sample_with_author "a" !! "authors" = Some (VList (a :: l)) ->
            ∃ member, keep a = Ok member ∧ author self = Some member) ∧
    (sample_with_author "a" !! "authors" = None ∨
     sample_with_author "a" !! "authors" = Some (VList []) ->
     author self = None).
Proof.
  apply (author_iff_authors_nonempty keep keep). reflexivity.
Defined.

Lemma missing_locale_empty_string_witness :
  ∃ self m vs,
    __init__ keep keep (sample "a") = Ok self ∧
    sample "a" !! "message" = Some (VDict m) ∧
    m !! "values" = Some (VDict vs) ∧
    (vs !! "ko" = None -> message_ko self = VStr "") ∧
    (vs !! "ja" = None -> message_ja self = VStr "") ∧
    (vs !! "en" = None -> message_en self = VStr "") ∧
    (∀ v, vs !! "ko" = Some v -> message_ko self = v) ∧
    (∀ v, vs !! "ja" = Some v -> message_ja self = v) ∧
    (∀ v, vs !! "en" = Some v -> message_en self = v).
Proof.
  apply (missing_locale_empty_string keep keep). reflexivity.
Defined.


(** ** More on the constructor *)

Section ConstructorFacts.

Context {PartialCommunity PartialMember : Type}.
Variable new_PartialCommunity : value -> result PartialCommunity.
Variable new_PartialMember : value -> result PartialMember.
Variable hash : value -> result Z.
Variable repr : value -> string.

Implicit Types self other : Notification PartialCommunity PartialMember.
Implicit Types d : gmap string value.

Local Notation init := (__init__ new_PartialCommunity new_PartialMember).

(** Reading back a construction that succeeded. *)
Lemma init_inversion d self :
  init d = Ok self ->
  ∃ m vs c,
    data self = d ∧
    d !! "activityId" = Some (id self) ∧
    d !! "title" = Some (title self) ∧
    d !! "message" = Some (VDict m) ∧ m !! "values" = Some (VDict vs) ∧
    message_ko self = default (VStr "") (vs !! "ko") ∧
    message_ja self = default (VStr "") (vs !! "ja") ∧
    message_en self = default (VStr "") (vs !! "en") ∧
    image_url self = default VNone (d !! "imageUrl") ∧
    d !! "logoImageUrl" = Some (logo_image_url self) ∧
    d !! "time" = Some (time_created self) ∧
    d !! "count" = Some (count self) ∧
    d !! "read" = Some (is_read self) ∧
    d !! "community" = Some c ∧ new_PartialCommunity c = Ok (community self) ∧
    (truthy (dict_get d "authors") = false -> author self = None) ∧
    (truthy (dict_get d "authors") = true -> is_Some (author self)).
Proof.
  unfold __init__, getitem. intros H.
  destruct (d !! "activityId") as [vid|] eqn:Eid; [| done].
  destruct (d !! "title") as [vtitle|] eqn:Etitle; [| done].
  destruct (d !! "message") as [[| | | | |m]|] eqn:Emsg; try done.
  cbn [mbind result_bind subscript] in H. unfold getitem in H.
  destruct (m !! "values") as [[| | | | |vs]|] eqn:Evs; try done.
  cbn [mbind result_bind get_method] in H.
  destruct (d !! "logoImageUrl") as [vlogo|] eqn:Elogo; [| done].
  destruct (d !! "time") as [vtime|] eqn:Etime; [| done].
  destruct (d !! "count") as [vcount|] eqn:Ecount; [| done].
  destruct (d !! "read") as [vread|] eqn:Eread; [| done].
  destruct (d !! "community") as [vcomm|] eqn:Ecomm; [| done].
  cbn [mbind result_bind] in H.
  destruct (new_PartialCommunity vcomm) as [comm|] eqn:Enew; [| done].
  cbn [mbind result_bind] in H.
  exists m, vs, vcomm.
  destruct (truthy (dict_get d "authors")) eqn:Etruthy.
  - destruct (d !! "authors") as [l|]; [| done]. cbn [mbind result_bind] in H.
    destruct (subscript_index l 0) as [a|]; [| done].
    cbn [mbind result_bind fmap result_fmap] in H.
    destruct (new_PartialMember a) as [member|]; [| done].
    injection H as <-. cbn. repeat split; done.
  - injection H as <-. cbn. repeat split; done.
Qed.

(** X1.  When the construction succeeds, the payload is kept in [data] and
    each plain attribute is the payload's entry under its key; [image_url]
    is the entry under imageUrl, or [None] without that key; the community
    is what its constructor made of the entry under community. *)
Theorem init_attributes_from_payload d self :
  __init__ new_PartialCommunity new_PartialMember d = Ok self ->
  data self = d ∧
  d !! "activityId" = Some (id self) ∧
  d !! "title" = Some (title self) ∧
  d !! "logoImageUrl" = Some (logo_image_url self) ∧
  d !! "time" = Some (time_created self) ∧
  d !! "count" = Some (count self) ∧
  d !! "read" = Some (is_read self) ∧
  image_url self = default VNone (d !! "imageUrl") ∧
  ∃ c, d !! "community" = Some c ∧
       new_PartialCommunity c = Ok (community self).
Proof.
  intros (m & vs & c & H)%init_inversion.
  destruct H as (? & ? & ? & _ & _ & _ & _ & _ & ? & ? & ? & ? & ? & ? & ? & _).
  repeat split; try done. by exists c.
Qed.

(** X2.  A payload that lacks one of the eight keys the constructor
    subscripts is never built into an instance; the failure is a KeyError
    when the entry under message is missing too, or is a mapping with a
    mapping under values. *)
Theorem init_missing_key_raises d k :
  k ∈ required_keys ->
  d !! k = None ->
  is_ok (__init__ new_PartialCommunity new_PartialMember d) = false ∧
  (d !! "message" = None ∨
   (∃ m vs, d !! "message" = Some (VDict m) ∧ m !! "values" = Some (VDict vs)) ->
   __init__ new_PartialCommunity new_PartialMember d = Raise KeyError).
Proof.
  intros Hk Hnone. split.
  - destruct (init d) as [self|] eqn:Hinit; [| done].
    destruct (init_inversion _ _ Hinit) as (m & vs & c & H).
    destruct H as (_ & ? & ? & ? & _ & _ & _ & _ & _ & ? & ? & ? & ? & ? & _).
    unfold required_keys in Hk.
    repeat (apply elem_of_cons in Hk as [-> | Hk]); try congruence.
    by apply elem_of_nil in Hk.
  - intros Hshape. unfold __init__, getitem.
    destruct (d !! "activityId") as [vid|] eqn:Eid; [| done].
    destruct (d !! "title") as [vtitle|] eqn:Etitle; [| done].
    destruct Hshape as [-> | (m & vs & Hm & Hvs)]; [done |].
    rewrite Hm. cbn [mbind result_bind subscript]. unfold getitem. rewrite Hvs.
    cbn [mbind result_bind get_method].
    destruct (d !! "logoImageUrl") as [vlogo|] eqn:Elogo; [| done].
    destruct (d !! "time") as [vtime|] eqn:Etime; [| done].
    destruct (d !! "count") as [vcount|] eqn:Ecount; [| done].
    destruct (d !! "read") as [vread|] eqn:Eread; [| done].
    destruct (d !! "community") as [vcomm|] eqn:Ecomm; [| done].
    unfold required_keys in Hk.
    repeat (apply elem_of_cons in Hk as [-> | Hk]); try congruence.
    by apply elem_of_nil in Hk.
Qed.

(** X3.  With activityId and title in place, an entry under message that is
    not a mapping makes the constructor raise TypeError, a mapping without
    values KeyError, and a mapping whose values is not a mapping
    AttributeError. *)
Theorem init_message_shape d v :
  is_Some (d !! "activityId") ->
  is_Some (d !! "title") ->
  d !! "message" = Some v ->
  match v with
  | VDict m =>
      match m !! "values" with
      | None =>
          __init__ new_PartialCommunity new_PartialMember d = Raise KeyError
      | Some (VDict _) => True
      | Some _ =>
          __init__ new_PartialCommunity new_PartialMember d = Raise AttributeError
      end
  | _ => __init__ new_PartialCommunity new_PartialMember d = Raise TypeError
  end.
Proof.
  intros [vid Eid] [vtitle Etitle] Emsg. unfold __init__, getitem.
  rewrite Eid, Etitle, Emsg. cbn [mbind result_bind].
  destruct v as [| | | | |m]; try done.
  unfold subscript, getitem.
  by destruct (m !! "values") as [[]|].
Qed.

Lemma read_key_insert_ne d k v key :
  k ∉ read_keys -> key ∈ read_keys -> <[k:=v]> d !! key = d !! key.
Proof. intros Hk Hkey. apply lookup_insert_ne. by intros ->. Qed.

(** X4.  A key that the constructor does not read changes nothing but the
    payload kept in [data]: with or without it the construction fails the
    same way, or succeeds with the same attributes. *)
Theorem init_ignores_other_keys d k v :
  k ∉ read_keys ->
  __init__ new_PartialCommunity new_PartialMember (<[k:=v]> d)
  = with_data (<[k:=v]> d) <$> __init__ new_PartialCommunity new_PartialMember d.
Proof.
  intros Hk. unfold __init__, getitem, dict_get.
  rewrite !(read_key_insert_ne d k v) by first [done | repeat constructor].
  destruct (d !! "activityId") as [vid|]; [| done].
  destruct (d !! "title") as [vtitle|]; [| done].
  destruct (d !! "message") as [vmsg|]; [| done].
  cbn [mbind result_bind].
  destruct (subscript vmsg "values") as [vs|]; [| done].
  cbn [mbind result_bind].
  destruct (get_method vs "ko" (VStr "")) as [ko|]; [| done].
  destruct (get_method vs "ja" (VStr "")) as [ja|]; [| done].
  destruct (get_method vs "en" (VStr "")) as [en|]; [| done].
  destruct (d !! "logoImageUrl") as [vlogo|]; [| done].
  destruct (d !! "time") as [vtime|]; [| done].
  destruct (d !! "count") as [vcount|]; [| done].
  destruct (d !! "read") as [vread|]; [| done].
  destruct (d !! "community") as [vcomm|]; [| done].
  cbn [mbind result_bind].
  destruct (new_PartialCommunity vcomm) as [comm|]; [| done].
  cbn [mbind result_bind].
  destruct (truthy (default VNone (d !! "authors"))); [| done].
  destruct (d !! "authors") as [l|]; [| done]. cbn [mbind result_bind].
  destruct (subscript_index l 0) as [a|]; [| done].
  cbn [mbind result_bind]. by destruct (new_PartialMember a).
Qed.

(** The construction on a payload that was accepted, with another entry
    under authors: all is as before up to the author. *)
Lemma init_with_authors d self v :
  init d = Ok self ->
  init (<["authors" := v]> d) =
  (if truthy v
   then a ← subscript_index v 0; Some <$> new_PartialMember a
   else Ok None) ≫= fun author =>
  Ok {| data := <["authors" := v]> d; id := id self; title := title self;
        message_ko := message_ko self; message_ja := message_ja self;
        message_en := message_en self; image_url := image_url self;
        logo_image_url := logo_image_url self;
        time_created := time_created self; count := count self;
        is_read := is_read self; community := community self;
        author := author |}.
Proof.
  intros (m & vs & c & H)%init_inversion.
  destruct H as (_ & Eid & Etitle & Emsg & Evs & -> & -> & -> & -> & Elogo
                 & Etime & Ecount & Eread & Ecomm & Enew & _).
  unfold __init__, getitem, dict_get.
  rewrite lookup_insert_eq, !lookup_insert_ne by done.
  rewrite Eid, Etitle, Emsg, Elogo, Etime, Ecount, Eread, Ecomm.
  cbn [mbind result_bind subscript]. unfold getitem. rewrite Evs, Enew.
  cbn [mbind result_bind get_method default]. done.
Qed.

(** X5.  How the entry under authors decides the construction, on a payload
    that is accepted otherwise: a false value ([None], [False], 0, an empty
    string, list or mapping) gives no author; the first element of a
    non-empty list, or the first character of a non-empty string, goes to
    the constructor of [PartialMember]; a non-empty mapping raises KeyError;
    [True] and a non-zero number raise TypeError. *)
Theorem init_authors_by_shape d self v :
  __init__ new_PartialCommunity new_PartialMember d = Ok self ->
  let built :=
    __init__ new_PartialCommunity new_PartialMember (<["authors" := v]> d) in
  (truthy v = false -> ∃ self', built = Ok self' ∧ author self' = None) ∧
  (∀ a l, v = VList (a :: l) -> is_ok built = is_ok (new_PartialMember a)) ∧
  (∀ c s, v = VStr (String c s) ->
     is_ok built = is_ok (new_PartialMember (VStr (String c "")))) ∧
  (∀ e, v = VDict e -> e ≠ ∅ -> built = Raise KeyError) ∧
  (v = VBool true -> built = Raise TypeError) ∧
  (∀ z, v = VInt z -> z ≠ 0%Z -> built = Raise TypeError).
Proof.
  intros Hinit. cbv zeta. rewrite (init_with_authors _ _ v Hinit).
  repeat split.
  - intros ->. by eexists.
  - intros a l ->. cbn. by destruct (new_PartialMember a).
  - intros c s ->. cbn. by destruct (new_PartialMember _).
  - intros e -> He. cbn. by rewrite bool_decide_eq_false_2.
  - by intros ->.
  - intros z -> Hz. cbn. by destruct (Z.eqb_spec z 0).
Qed.

(** X6.  On a notification that was built, [url] is the origin followed by
    the entry under webUrl, as it stands, and a KeyError without that
    entry. *)
Theorem url_of_payload d self :
  __init__ new_PartialCommunity new_PartialMember d = Ok self ->
  url repr self =
  match d !! "webUrl" with
  | Some (VStr path) => Ok ("https://weverse.io" +:+ path)
  | Some v => Ok ("https://weverse.io" +:+ repr v)
  | None => Raise KeyError
  end.
Proof.
  intros (m & vs & c & Hdata & _)%init_inversion. unfold url, getitem.
  rewrite Hdata. by destruct (d !! "webUrl") as [[]|].
Qed.

(** X7.  On a notification that was built, [str] is the entry under en of
    [message.values], the empty string without it, and [repr] ends with
    that message when it is a string. *)
Theorem str_repr_of_payload d self :
  __init__ new_PartialCommunity new_PartialMember d = Ok self ->
  ∃ m vs,
    d !! "message" = Some (VDict m) ∧ m !! "values" = Some (VDict vs) ∧
    __str__ self = default (VStr "") (vs !! "en") ∧
    (vs !! "en" = None -> __str__ self = VStr "") ∧
    ∀ text, __str__ self = VStr text ->
      __repr__ repr self =
      "Notification notification_id=" +:+ format repr (id self) +:+
      ", message=" +:+ text.
Proof.
  intros (m & vs & c & H)%init_inversion.
  destruct H as (_ & _ & _ & Emsg & Evs & _ & _ & Hen & _).
  exists m, vs. unfold __str__, __repr__. rewrite Hen.
  repeat split; try done.
  - by intros ->.
  - by intros text ->.
Qed.

(** X8.  Two notifications built from valid payloads are equal when the
    payloads have the same activityId and different when they do not,
    whatever the rest of the payloads. *)
Theorem eq_by_activity_id d1 d2 n1 n2 :
  valid_payload new_PartialCommunity new_PartialMember d1 = true ->
  valid_payload new_PartialCommunity new_PartialMember d2 = true ->
  __init__ new_PartialCommunity new_PartialMember d1 = Ok n1 ->
  __init__ new_PartialCommunity new_PartialMember d2 = Ok n2 ->
  (d1 !! "activityId" = d2 !! "activityId" ->
   __eq__ n1 (ANotification n2) = Ok true) ∧
  (d1 !! "activityId" ≠ d2 !! "activityId" ->
   __eq__ n1 (ANotification n2) = Ok false).
Proof.
  intros [z1 E1]%valid_payload_int_id [z2 E2]%valid_payload_int_id.
  intros (? & ? & ? & _ & Hid1 & _)%init_inversion.
  intros (? & ? & ? & _ & Hid2 & _)%init_inversion.
  rewrite E1 in Hid1. rewrite E2 in Hid2.
  injection Hid1 as Hid1. injection Hid2 as Hid2.
  rewrite E1, E2. unfold __eq__. rewrite <- Hid1, <- Hid2. split.
  - intros [= ->]. f_equal. by apply py_eq_int.
  - intros Hne. f_equal. destruct (py_eq (VInt z1) (VInt z2)) eqn:E; [| done].
    apply py_eq_int in E as ->. done.
Qed.

(** C10 (amended).  A payload that has the eight keys the constructor
    subscripts, with a mapping under message that holds a mapping under
    values, a community that its constructor accepts and authors missing,
    [None] or a list whose first element, if any, its constructor accepts,
    but that has neither [webUrl] nor [messageId], is built into a
    notification that carries the payload and its entries and whose [str],
    [hash] and [==] work on them.  The missing keys raise KeyError when
    [url], [post_id] or [post_type] is read, and not before. *)
Theorem missing_webUrl_messageId_raise_on_access d :
  has_required_keys new_PartialCommunity new_PartialMember d = true ->
  d !! "webUrl" = None ->
  d !! "messageId" = None ->
  ∃ self m vs c,
    __init__ new_PartialCommunity new_PartialMember d = Ok self ∧
    data self = d ∧
    d !! "activityId" = Some (id self) ∧
    d !! "title" = Some (title self) ∧
    d !! "message" = Some (VDict m) ∧ m !! "values" = Some (VDict vs) ∧
    message_ko self = default (VStr "") (vs !! "ko") ∧
    message_ja self = default (VStr "") (vs !! "ja") ∧
    message_en self = default (VStr "") (vs !! "en") ∧
    image_url self = default VNone (d !! "imageUrl") ∧
    d !! "logoImageUrl" = Some (logo_image_url self) ∧
    d !! "time" = Some (time_created self) ∧
    d !! "count" = Some (count self) ∧
    d !! "read" = Some (is_read self) ∧
    d !! "community" = Some c ∧
    new_PartialCommunity c = Ok (community self) ∧
    match d !! "authors" with
    | Some (VList (a :: _)) =>
        ∃ member, new_PartialMember a = Ok member ∧ author self = Some member
    | _ => author self = None
    end ∧
    __str__ self = default (VStr "") (vs !! "en") ∧
    (∀ v, d !! "activityId" = Some v ->
          __hash__ hash self = hash v ∧
          __eq__ self (ANotification self) = Ok (py_eq v v)) ∧
    url repr self = Raise KeyError ∧
    post_id self = Raise KeyError ∧
    post_type self = Raise KeyError.
Proof.
  intros Hkeys Hurl Hmid.
  destruct (init_required_keys _ _ _ Hkeys)
    as (self & _ & _ & Hinit & _ & _ & _ & _ & _ & _ & _ & Hauthor).
  destruct (init_inversion _ _ Hinit) as (m & vs & c & H).
  destruct H as (Hdata & Hid & Htitle & Hmsg & Hvs & Hko & Hja & Hen & Himg
                 & Hlogo & Htime & Hcount & Hread & Hcomm & Hnew & _).
  exists self, m, vs, c.
  repeat (split; [done |]). split; [| split; [| split]].
  - intros v Hv. rewrite Hid in Hv. injection Hv as <-. done.
  - unfold url, getitem. by rewrite Hdata, Hurl.
  - unfold post_id, getitem. by rewrite Hdata, Hmid.
  - unfold post_type, post_types, post_type_loop, getitem.
    by rewrite Hdata, Hmid.
Qed.

End ConstructorFacts.

(** ** More on the two searches *)

Section SearchFacts.

Implicit Types s r f pre post : string.

Lemma occurs_trans sub mid s : occurs sub mid -> occurs mid s -> occurs sub s.
Proof.
  intros (a & b & ->) (pre & post & ->).
  exists (pre +:+ a), (b +:+ post). by rewrite !append_assoc.
Qed.

Lemma digit_run_all r : all_digits r = true -> digit_run r = r.
Proof.
  intros Hr. rewrite <- (append_nil_r r) at 1. by apply digit_run_append.
Qed.

(** The first search on a fragment returns the fragment. *)
Lemma scan_pattern_fragment f :
  digit_hyphen_digits f -> re.scan pattern f = Some f.
Proof.
  intros (c & b & -> & Hc & Hne & Hb). rewrite scan_unfold, match_pattern.
  rewrite Hc, Ascii.eqb_refl. cbn [andb].
  rewrite <- (append_nil_r b) at 1.
  rewrite starts_with_digit_append by done. by rewrite digit_run_all.
Qed.

(** The first search finds nothing in a run of digits. *)
Lemma scan_pattern_all_digits r :
  all_digits r = true -> re.scan pattern r = None.
Proof.
  induction r as [|c r IH]; [done |]. intros [Hc Hr]%andb_true_iff.
  rewrite scan_unfold, match_pattern, (IH Hr).
  destruct r as [|h t]; [done |]. simpl in Hr.
  apply andb_true_iff in Hr as [Hh _].
  destruct (Ascii.eqb_spec "-" h) as [<- |]; [done |].
  by rewrite andb_false_r.
Qed.

Lemma scan_digits_run r :
  r ≠ "" -> all_digits r = true -> re.scan digits r = Some r.
Proof.
  intros Hne Hr. rewrite <- (append_nil_r r) at 1.
  by apply (scan_digits_first "" r "").
Qed.

(** What the second search returns is the first run of digits. *)
Lemma scan_digits_Some s r :
  re.scan digits s = Some r ->
  ∃ pre post, s = pre +:+ r +:+ post ∧ no_digit pre = true ∧ r ≠ "" ∧
              all_digits r = true ∧ starts_with_digit post = false.
Proof.
  intros Hscan. destruct (no_digit s) eqn:Hno.
  - by rewrite scan_digits_no_digit in Hscan.
  - destruct (first_run_exists s Hno)
      as (pre & run & post & -> & Hpre & Hne & Hrun & Hpost).
    rewrite scan_digits_first in Hscan by done. injection Hscan as <-.
    by exists pre, post.
Qed.

(** Text without digits before the string changes neither search. *)
Lemma scan_pattern_skip pre s :
  no_digit pre = true -> re.scan pattern (pre +:+ s) = re.scan pattern s.
Proof.
  induction pre as [|c pre IH]; [done |]. intros [Hc Hpre]%andb_true_iff.
  apply negb_true_iff in Hc.
  rewrite append_cons, scan_unfold, match_pattern, Hc.
  destruct (pre +:+ s); by rewrite <- IH.
Qed.

Lemma scan_digits_skip pre s :
  no_digit pre = true -> re.scan digits (pre +:+ s) = re.scan digits s.
Proof.
  induction pre as [|c pre IH]; [done |]. intros [Hc Hpre]%andb_true_iff.
  apply negb_true_iff in Hc.
  rewrite append_cons, scan_unfold, match_digits. cbn [starts_with_digit].
  rewrite Hc. auto.
Qed.

End SearchFacts.

(** ** More on [post_id] and [post_type] *)

Section PropertyFacts.

Context {PartialCommunity PartialMember : Type}.

Implicit Types self other : Notification PartialCommunity PartialMember.
Implicit Types s r : string.

(** What the loop of [post_type] returns on a string. *)
Lemma post_type_loop_result items self s :
  data self !! "messageId" = Some (VStr s) ->
  (∃ before key value after,
     items = (before ++ (key, value) :: after)%list ∧
     Forall (fun kv => ¬ occurs kv.1 s) before ∧ occurs key s ∧
     post_type_loop items self = Ok (Member value)) ∨
  (Forall (fun kv => ¬ occurs kv.1 s) items ∧
   post_type_loop items self = Ok (Text "NOT IMPLEMENTED")).
Proof.
  intros Hs. induction items as [|[key value] items IH].
  - right. by split.
  - destruct (is_substring key s) eqn:Hkey.
    + left. apply is_substring_occurs in Hkey.
      exists [], key, value, items. repeat split; try done.
      by apply (post_type_loop_hit _ s).
    + apply is_substring_not_occurs in Hkey.
      assert (Hskip : post_type_loop ((key, value) :: items) self
                      = post_type_loop items self).
      { apply (post_type_loop_skip self s [(key, value)] items Hs).
        by constructor. }
      rewrite Hskip.
      destruct IH as [(before & k & v & after & -> & Hbefore & Hk & Hloop)
                     | [Hall Hloop]].
      * left. exists ((key, value) :: before), k, v, after.
        repeat split; try done. by constructor.
      * right. split; [by constructor | done].
Qed.

(** X9.  On a string, [post_id] returns exactly when the string holds a
    digit. *)
Theorem post_id_ok_iff_digit self s :
  data self !! "messageId" = Some (VStr s) ->
  is_ok (post_id self) = negb (no_digit s).
Proof.
  intros Hs. rewrite (post_id_scan _ _ Hs).
  destruct (no_digit s) eqn:Hno.
  - by rewrite scan_pattern_no_digit, scan_digits_no_digit.
  - destruct (re.scan pattern s); [done |].
    destruct (first_run_exists s Hno)
      as (pre & run & post & -> & Hpre & Hne & Hrun & Hpost).
    by rewrite scan_digits_first.
Qed.

(** X10.  What [post_id] returns is a piece of [messageId], and is either
    one digit, a hyphen and digits, or digits alone; never empty. *)
Theorem post_id_result_shape self s r :
  data self !! "messageId" = Some (VStr s) ->
  post_id self = Ok r ->
  occurs r s ∧
  (digit_hyphen_digits r ∨ (r ≠ "" ∧ all_digits r = true)).
Proof.
  intros Hs. rewrite (post_id_scan _ _ Hs).
  destruct (re.scan pattern s) as [f|] eqn:Hscan.
  - intros [= <-].
    destruct (scan_pattern_first _ _ Hscan) as (pre & post & -> & Hf & _).
    split; [by exists pre, post | by left].
  - destruct (re.scan digits s) as [run|] eqn:Hdigits; [| done].
    intros [= <-].
    destruct (scan_digits_Some _ _ Hdigits) as (pre & post & -> & _ & ? & ? & _).
    split; [by exists pre, post | by right].
Qed.

(** X11.  An entry under messageId that is not a string makes [post_id]
    raise TypeError.  [post_type] raises TypeError on [None], a boolean or
    a number, and on a list or a mapping it tests membership and returns. *)
Theorem non_string_message_id self v :
  data self !! "messageId" = Some v ->
  (∀ s, v ≠ VStr s) ->
  post_id self = Raise TypeError ∧
  match v with
  | VList _ | VDict _ => is_ok (post_type self) = true
  | _ => post_type self = Raise TypeError
  end.
Proof.
  intros Hv Hstr. split.
  - unfold post_id, getitem. rewrite Hv.
    destruct v; try done. by destruct (Hstr s).
  - assert (Hloop : ∀ items, match v with
                             | VList _ | VDict _ =>
                                 is_ok (post_type_loop items self) = true
                             | _ => items ≠ [] ->
                                    post_type_loop items self = Raise TypeError
                             end).
    { induction items as [|[key value] items IH];
        destruct v; try done; try (by destruct (Hstr s));
        cbn [post_type_loop]; unfold getitem; rewrite Hv;
        cbn [mbind result_bind contains]; try done.
      - by destruct (existsb _ _).
      - by destruct (bool_decide _). }
    specialize (Hloop post_types). unfold post_type.
    destruct v; try done; by apply Hloop.
Qed.

(** X12.  [post_id] reads its own results as themselves: a notification
    whose messageId is a post id returned by [post_id] has that post id. *)
Theorem post_id_of_post_id self other s r :
  data self !! "messageId" = Some (VStr s) ->
  post_id self = Ok r ->
  data other !! "messageId" = Some (VStr r) ->
  post_id other = Ok r.
Proof.
  intros Hs Hr Hother. rewrite (post_id_scan _ _ Hother).
  rewrite (post_id_scan _ _ Hs) in Hr.
  destruct (re.scan pattern s) as [f|] eqn:Hscan.
  - injection Hr as <-.
    destruct (scan_pattern_first _ _ Hscan) as (_ & _ & _ & Hf & _).
    by rewrite scan_pattern_fragment.
  - destruct (re.scan digits s) as [run|] eqn:Hdigits; [| done].
    injection Hr as <-.
    destruct (scan_digits_Some _ _ Hdigits) as (_ & _ & _ & _ & ? & ? & _).
    by rewrite scan_pattern_all_digits, scan_digits_run.
Qed.

(** X13.  Text without digits in front of [messageId] does not change
    [post_id]. *)
Theorem post_id_skips_digitless_prefix self other pre s :
  data self !! "messageId" = Some (VStr s) ->
  data other !! "messageId" = Some (VStr (pre +:+ s)) ->
  no_digit pre = true ->
  post_id other = post_id self.
Proof.
  intros Hs Hother Hpre.
  rewrite (post_id_scan _ _ Hs), (post_id_scan _ _ Hother).
  by rewrite scan_pattern_skip, scan_digits_skip.
Qed.

(** X14.  On a string, [post_type] always returns: a category only when
    one of its markers occurs in [messageId], and otherwise, exactly when
    no marker of the table occurs, the text NOT IMPLEMENTED. *)
Theorem post_type_result self s :
  data self !! "messageId" = Some (VStr s) ->
  ∃ result,
    post_type self = Ok result ∧
    (∀ value, result = Member value ->
       ∃ key, (key, value) ∈ post_types ∧ occurs key s) ∧
    (∀ text, result = Text text ->
       text = "NOT IMPLEMENTED" ∧
       Forall (fun kv => ¬ occurs kv.1 s) post_types) ∧
    (Exists (fun kv => occurs kv.1 s) post_types ->
     ∃ value, result = Member value).
Proof.
  intros Hs. unfold post_type.
  destruct (post_type_loop_result post_types self s Hs)
    as [(before & key & value & after & Htable & Hbefore & Hkey & ->)
       | [Hnone ->]].
  - exists (Member value). split; [done |]. split; [| split].
    + intros ? [= <-]. exists key. split; [| done].
      rewrite Htable. apply elem_of_app. right. apply elem_of_cons. by left.
    + by intros ? [=].
    + intros _. by exists value.
  - exists (Text "NOT IMPLEMENTED"). split; [done |]. split; [| split].
    + by intros ? [=].
    + by intros ? [= <-].
    + intros Hsome. apply Exists_exists in Hsome as (kv & Hin & Hkv).
      rewrite Forall_forall in Hnone. by destruct (Hnone kv Hin).
Qed.

(** X15.  The entry ST_FEED_COMMENT of the table never decides: on a
    string, [post_type] is what the loop returns on the table without that
    entry, since T_FEED_COMMENT occurs wherever ST_FEED_COMMENT does. *)
Theorem post_type_shadowed_marker self s :
  data self !! "messageId" = Some (VStr s) ->
  post_type self
  = post_type_loop (take 1 post_types ++ drop 2 post_types)%list self.
Proof.
  intros Hs. unfold post_type.
  change post_types with (take 2 post_types ++ drop 2 post_types)%list at 1.
  destruct (is_substring "T_FEED_COMMENT" s) eqn:Hkey.
  - apply is_substring_occurs in Hkey.
    cbn [take drop post_types app].
    by rewrite !(post_type_loop_hit _ s).
  - apply is_substring_not_occurs in Hkey.
    rewrite !(post_type_loop_skip self s) ; try done.
    + repeat constructor. done.
    + repeat constructor; cbn [fst]; [done |].
      intros Hst. apply Hkey.
      apply (occurs_trans _ "ST_FEED_COMMENT"); [| done].
      by exists "S", "".
Qed.

(** X16.  [post_id] and [post_type] read nothing but the entry under
    messageId: two notifications that agree on it agree on both. *)
Theorem properties_read_message_id_only self other :
  data self !! "messageId" = data other !! "messageId" ->
  post_id self = post_id other ∧ post_type self = post_type other.
Proof.
  intros H. split.
  - unfold post_id, getitem. by rewrite H.
  - unfold post_type. generalize post_types.
    induction l as [|[key value] items IH]; [done |].
    cbn [post_type_loop]. unfold getitem. by rewrite H, IH.
Qed.

End PropertyFacts.

(** C10 as the claim has it fails on payloads that hold every key the
    constructor subscripts and neither [webUrl] nor [messageId]: with a
    list under message the construction raises TypeError, and with a
    non-empty mapping under authors it raises KeyError. *)
Lemma required_keys_present_not_built :
  let d1 := <["message" := VList []]> sample_without_message_id in
  let d2 := <["authors" := VDict (<["memberId" := VStr "m1"]> ∅)]>
              sample_without_message_id in
  (Forall (fun k => is_Some (d1 !! k)) required_keys ∧
   d1 !! "webUrl" = None ∧ d1 !! "messageId" = None ∧
   __init__ keep keep d1 = Raise TypeError) ∧
  (Forall (fun k => is_Some (d2 !! k)) required_keys ∧
   d2 !! "webUrl" = None ∧ d2 !! "messageId" = None ∧
   __init__ keep keep d2 = Raise KeyError).
Proof.
  split; (split; [repeat constructor; by eexists | by repeat split]).
Qed.

Lemma missing_webUrl_messageId_raise_on_access_witness :
  ∃ self m vs c,
    __init__ keep keep sample_without_message_id = Ok self ∧
    data self = sample_without_message_id ∧
    sample_without_message_id !! "activityId" = Some (id self) ∧
    sample_without_message_id !! "title" = Some (title self) ∧
    sample_without_message_id !! "message" = Some (VDict m) ∧
    m !! "values" = Some (VDict vs) ∧
    message_ko self = default (VStr "") (vs !! "ko") ∧
    message_ja self = default (VStr "") (vs !! "ja") ∧
    message_en self = default (VStr "") (vs !! "en") ∧
    image_url self = default VNone (sample_without_message_id !! "imageUrl") ∧
    sample_without_message_id !! "logoImageUrl" = Some (logo_image_url self) ∧
    sample_without_message_id !! "time" = Some (time_created self) ∧
    sample_without_message_id !! "count" = Some (count self) ∧
    sample_without_message_id !! "read" = Some (is_read self) ∧
    sample_without_message_id !! "community" = Some c ∧
    keep c = Ok (community self) ∧
    match sample_without_message_id !! "authors" with
    | Some (VList (a :: _)) =>
        ∃ member, keep a = Ok member ∧ author self = Some member
    | _ => author self = None
    end ∧
    __str__ self = default (VStr "") (vs !! "en") ∧
    (∀ v, sample_without_message_id !! "activityId" = Some v ->
          __hash__ sample_hash self = sample_hash v ∧
          __eq__ self (ANotification self) = Ok (py_eq v v)) ∧
    url sample_repr self = Raise KeyError ∧
    post_id self = Raise KeyError ∧
    post_type self = Raise KeyError.
Proof.
  apply (missing_webUrl_messageId_raise_on_access keep keep sample_hash
           sample_repr); reflexivity.
Defined.

(** ** The further properties on concrete payloads *)

Lemma init_attributes_from_payload_witness :
  data (sample_notification "a") = sample "a" ∧
  sample "a" !! "activityId" = Some (id (sample_notification "a")) ∧
  sample "a" !! "title" = Some (title (sample_notification "a")) ∧
  sample "a" !! "logoImageUrl" = Some (logo_image_url (sample_notification "a")) ∧
  sample "a" !! "time" = Some (time_created (sample_notification "a")) ∧
  sample "a" !! "count" = Some (count (sample_notification "a")) ∧
  sample "a" !! "read" = Some (is_read (sample_notification "a")) ∧
  image_url (sample_notification "a") = default VNone (sample "a" !! "imageUrl") ∧
  ∃ c, sample "a" !! "community" = Some c ∧
       keep c = Ok (community (sample_notification "a")).
Proof.
  apply (init_attributes_from_payload keep keep). reflexivity.
Defined.

Lemma init_missing_key_raises_witness :
  is_ok (__init__ keep keep (delete "community" (sample "a"))) = false ∧
  (delete "community" (sample "a") !! "message" = None ∨
   (∃ m vs, delete "community" (sample "a") !! "message" = Some (VDict m) ∧
            m !! "values" = Some (VDict vs)) ->
   __init__ keep keep (delete "community" (sample "a")) = Raise KeyError).
Proof.
  apply (init_missing_key_raises keep keep _ "community").
  - repeat constructor.
  - reflexivity.
Defined.

Lemma init_message_shape_witness :
  __init__ keep keep (<["message" := VList []]> (sample "a")) = Raise TypeError.
Proof.
  apply (init_message_shape keep keep
           (<["message" := VList []]> (sample "a")) (VList [])).
  - by eexists.
  - by eexists.
  - reflexivity.
Defined.

Lemma init_ignores_other_keys_witness :
  __init__ keep keep (<["webUrl" := VStr "/fan/1"]> (sample "a"))
  = with_data (<["webUrl" := VStr "/fan/1"]> (sample "a"))
      <$> __init__ keep keep (sample "a").
Proof.
  apply (init_ignores_other_keys keep keep).
  intros H. unfold read_keys in H.
  repeat (apply elem_of_cons in H as [H | H]; [discriminate H |]).
  by apply elem_of_nil in H.
Defined.

Lemma init_authors_by_shape_witness :
  let v := VDict (<["memberId" := VStr "m1"]> ∅) in
  let built := __init__ keep keep (<["authors" := v]> (sample "a")) in
  (truthy v = false -> ∃ self', built = Ok self' ∧ author self' = None) ∧
  (∀ a l, v = VList (a :: l) -> is_ok built = is_ok (keep a)) ∧
  (∀ c s, v = VStr (String c s) ->
     is_ok built = is_ok (keep (VStr (String c "")))) ∧
  (∀ e, v = VDict e -> e ≠ ∅ -> built = Raise KeyError) ∧
  (v = VBool true -> built = Raise TypeError) ∧
  (∀ z, v = VInt z -> z ≠ 0%Z -> built = Raise TypeError).
Proof.
  apply (init_authors_by_shape keep keep (sample "a") (sample_notification "a")).
  reflexivity.
Defined.

Lemma url_of_payload_witness :
  url sample_repr
    (with_data (<["webUrl" := VStr "/fan/1"]> (sample "a"))
       (sample_notification "a"))
  = Ok "https://weverse.io/fan/1".
Proof.
  etrans.
  - apply (url_of_payload keep keep sample_repr
             (<["webUrl" := VStr "/fan/1"]> (sample "a"))).
    reflexivity.
  - reflexivity.
Defined.

Lemma str_repr_of_payload_witness :
  ∃ m vs,
    sample "a" !! "message" = Some (VDict m) ∧
    m !! "values" = Some (VDict vs) ∧
    __str__ (sample_notification "a") = default (VStr "") (vs !! "en") ∧
    (vs !! "en" = None -> __str__ (sample_notification "a") = VStr "") ∧
    ∀ text, __str__ (sample_notification "a") = VStr text ->
      __repr__ sample_repr (sample_notification "a") =
      "Notification notification_id=" +:+
      format sample_repr (id (sample_notification "a")) +:+
      ", message=" +:+ text.
Proof.
  apply (str_repr_of_payload keep keep sample_repr). reflexivity.
Defined.

Lemma eq_by_activity_id_witness :
  (sample "a" !! "activityId" = sample "b" !! "activityId" ->
   __eq__ (sample_notification "a") (ANotification (sample_notification "b"))
   = Ok true) ∧
  (sample "a" !! "activityId" ≠ sample "b" !! "activityId" ->
   __eq__ (sample_notification "a") (ANotification (sample_notification "b"))
   = Ok false).
Proof.
  apply (eq_by_activity_id keep keep (sample "a") (sample "b")); reflexivity.
Defined.

Lemma post_id_ok_iff_digit_witness :
  is_ok (post_id (sample_notification "NOTICE-98765"))
  = negb (no_digit "NOTICE-98765").
Proof.
  apply post_id_ok_iff_digit. reflexivity.
Defined.

Lemma post_id_result_shape_witness :
  occurs "98765" "NOTICE-98765" ∧
  (digit_hyphen_digits "98765" ∨ ("98765" ≠ "" ∧ all_digits "98765" = true)).
Proof.
  apply (post_id_result_shape (sample_notification "NOTICE-98765"));
    reflexivity.
Defined.

Lemma non_string_message_id_witness :
  post_id (sample_notification_of VNone) = Raise TypeError ∧
  post_type (sample_notification_of VNone) = Raise TypeError.
Proof.
  apply (non_string_message_id (sample_notification_of VNone) VNone).
  - reflexivity.
  - intros s. discriminate.
Defined.

Lemma post_id_of_post_id_witness :
  post_id (sample_notification "3-12345") = Ok "3-12345".
Proof.
  apply (post_id_of_post_id
           (sample_notification "c2p-T_FEED_COMMENT-3-12345")
           (sample_notification "3-12345")
           "c2p-T_FEED_COMMENT-3-12345"); reflexivity.
Defined.

Lemma post_id_skips_digitless_prefix_witness :
  post_id (sample_notification "NOTICE-3-12345")
  = post_id (sample_notification "3-12345").
Proof.
  apply (post_id_skips_digitless_prefix _ _ "NOTICE-" "3-12345"); reflexivity.
Defined.

Lemma post_type_result_witness :
  ∃ result,
    post_type (sample_notification "NOTICE-1") = Ok result ∧
    (∀ value, result = Member value ->
       ∃ key, (key, value) ∈ post_types ∧ occurs key "NOTICE-1") ∧
    (∀ text, result = Text text ->
       text = "NOT IMPLEMENTED" ∧
       Forall (fun kv => ¬ occurs kv.1 "NOTICE-1") post_types) ∧
    (Exists (fun kv => occurs kv.1 "NOTICE-1") post_types ->
     ∃ value, result = Member value).
Proof.
  apply post_type_result. reflexivity.
Defined.

Lemma post_type_shadowed_marker_witness :
  post_type (sample_notification "ST_FEED_COMMENT-1")
  = post_type_loop (take 1 post_types ++ drop 2 post_types)%list
      (sample_notification "ST_FEED_COMMENT-1").
Proof.
  apply (post_type_shadowed_marker _ "ST_FEED_COMMENT-1"). reflexivity.
Defined.

Lemma properties_read_message_id_only_witness :
  post_id (sample_notification "3-12345")
  = post_id (sample_notification_of (VStr "3-12345")) ∧
  post_type (sample_notification "3-12345")
  = post_type (sample_notification_of (VStr "3-12345")).
Proof.
  apply properties_read_message_id_only. reflexivity.
Defined.
